(** * FastVGICPCuda: the registration adapter of fast_gicp

    A shallow embedding of
    [include/fast_gicp/gicp/impl/fast_vgicp_cuda_impl.hpp].

    The adapter owns a backend engine ([FastVGICPCudaCore]), two kd-trees and
    the configuration inherited from its base classes.  Everything the adapter
    calls but does not define (the PCL kd-tree, the PCL registration base
    class, the backend engine, the outer solver) is an interface here; the
    adapter's own methods are translated statement by statement. *)

From stdpp Require Import base option list strings gmap.
From Stdlib Require Import ZArith Lia.

Open Scope Z_scope.

(** ** Value types

    The template parameter [PointT] and the Eigen value types are only moved
    around by the adapter: it never computes with their coordinates. *)

Class Values := {
  PointT : Type;       (* PointSource = PointTarget *)
  Vector3f : Type;     (* Eigen::Vector3f *)
  Matrix3f : Type;     (* Eigen::Matrix3f *)
  double : Type;
  Isometry3d : Type;   (* Eigen::Isometry3d *)
  Matrix4 : Type;      (* Registration::Matrix4 *)
  Matrix6d : Type;     (* Eigen::Matrix<double, 6, 6> *)
  Vector6d : Type;     (* Eigen::Matrix<double, 6, 1> *)
  getVector3fMap : PointT → Vector3f
}.

(** [int] is 32 bits wide. *)
Definition INT_MAX : Z := 2147483647.

(** ** pcl::search::KdTree

    The tree is represented by the points it indexes ([setInputCloud] replaces
    them); [nearestKSearch tree pt k] is the [k_indices] vector the search
    leaves behind. *)

Class KdTreeSearch `{Values} := {
  nearestKSearch : list PointT → PointT → Z → list Z
}.

(** PCL clips [k] to the number of indexed points and resizes [k_indices] to
    the clipped value. *)
Class KdTreeClips `{KdTreeSearch} : Prop := {
  nearestKSearch_length : ∀ tree pt k,
    0 ≤ k → length (nearestKSearch tree pt k) = (Z.to_nat k `min` length tree)%nat
}.

Section Neighbors.
Context `{KdTreeSearch}.

(** One iteration of the [omp parallel for] body: search around
    [cloud->at(i)] and [std::copy] the result to [neighbors.begin() + i * k].
    The loop only visits indices below [cloud->size()], on which [at] does not
    throw.  The kd-tree returns at most [k] indices ([KdTreeClips]), so the
    copy stays inside the vector; [std::copy] checks no bound, and only for
    such a kd-tree is [list_inserts], which drops what lies past the end, the
    copy of the code.  An iteration reads the shared kd-tree and cloud and
    writes nothing but its copy, which is why it is taken as one step of the
    schedule below. *)
Definition kdtree_iteration (k : Z) (cloud : list PointT)
    (neighbors : list Z) (i : nat) : list Z :=
  match cloud !! i with
  | Some pt =>
      let k_indices := nearestKSearch cloud pt k in
      list_inserts (Z.to_nat (Z.of_nat i * k)) k_indices neighbors
  | None => neighbors
  end.

(** The loop under a schedule: the order in which the iterations
    [0 .. size-1] are carried out by the worker threads. *)
Definition kdtree_loop (sched : list nat) (k : Z) (cloud : list PointT)
    (neighbors : list Z) : list Z :=
  foldl (kdtree_iteration k cloud) neighbors sched.

(** [std::vector<int> neighbors(cloud->size() * k)]: the product is taken in
    [size_t], so a negative [k] on a non-empty cloud asks for an impossible
    length and the constructor throws; [int i] and, once the loop runs,
    [i * k] must stay within [int].  [None] stands for these abnormal exits.
    On an empty cloud the vector is empty and the loop never forms [i * k].
    Running out of memory is not modelled. *)
Definition neighbors_alloc (k : Z) (size : nat) : option (list Z) :=
  if decide (k < 0 ∧ (0 < size)%nat) then None
  else if decide (INT_MAX < Z.of_nat size) then None
  else if decide ((0 < size)%nat ∧ INT_MAX < (Z.of_nat size - 1) * k) then None
  else Some (replicate (size * Z.to_nat k)%nat 0).

(** The inputs on which the allocation and the index arithmetic succeed. *)
Definition within_int (k : Z) (size : nat) : Prop :=
  0 ≤ k ∧ Z.of_nat size ≤ INT_MAX ∧ (Z.of_nat size - 1) * k ≤ INT_MAX.

Definition find_neighbors_parallel_kdtree_sched (sched : list nat) (k : Z)
    (cloud : list PointT) : option (list Z * list PointT) :=
  let kdtree := cloud in                        (* kdtree.setInputCloud(cloud) *)
  neighbors ← neighbors_alloc k (length cloud);
  Some (kdtree_loop sched k kdtree neighbors, kdtree).

(** The method itself, iterations taken in index order.  The result is the
    new contents of [neighbors] and of the kd-tree passed by reference. *)
Definition find_neighbors_parallel_kdtree (k : Z) (cloud : list PointT)
    : option (list Z * list PointT) :=
  find_neighbors_parallel_kdtree_sched (seq 0 (length cloud)) k cloud.

(** The value that the iteration owning position [j] writes there, if it
    writes one: iteration [i] owns the [k] positions from [i * k] on. *)
Definition slot_value (k : Z) (cloud : list PointT) (j : nat) : option Z :=
  pt ← cloud !! (j `div` Z.to_nat k)%nat;
  nearestKSearch cloud pt k !! (j `mod` Z.to_nat k)%nat.
End Neighbors.

(** ** Cloud pointers

    A [boost::shared_ptr<const PointCloud>] is an address or null; the clouds
    themselves live in a store.  [cloud == input_] compares addresses. *)

Definition CloudPtr := option positive.
Abbreviation CloudStore := (gmap positive (list PointT)).

(** [cloud->...]: a null pointer has no pointee. *)
Definition deref `{Values} (clouds : CloudStore) (cloud : CloudPtr)
    : option (list PointT) :=
  addr ← cloud; clouds !! addr.

(** ** The backend engine, FastVGICPCudaCore

    The adapter reaches the engine only through these member functions, each
    of which may update the engine. *)

Class VGICPCore `{Values} (RegularizationMethod Core : Type) := {
  core_new : Core;                                   (* new FastVGICPCudaCore() *)
  set_max_iterations : Z → Core → Core;
  set_rotation_epsilon : double → Core → Core;
  set_transformation_epsilon : double → Core → Core;
  set_resolution : double → Core → Core;
  swap_source_and_target : Core → Core;
  set_source_cloud : list Vector3f → Core → Core;
  set_target_cloud : list Vector3f → Core → Core;
  set_source_neighbors : Z → list Z → Core → Core;
  set_target_neighbors : Z → list Z → Core → Core;
  find_source_neighbors : Z → Core → Core;
  find_target_neighbors : Z → Core → Core;
  calculate_source_covariances : RegularizationMethod → Core → Core;
  calculate_target_covariances : RegularizationMethod → Core → Core;
  get_source_covariances : Core → list Matrix3f * Core;
  create_target_voxelmap : Core → Core;
  core_update_correspondences : Isometry3d → Core → Core;
  core_update_mahalanobis : Isometry3d → Core → Core;
  core_compute_error : Isometry3d → Core → (double * Matrix6d * Vector6d) * Core
}.
#[global] Hint Mode VGICPCore - - ! : typeclass_instances.

(** ** The adapter object *)

Inductive NearestNeighborMethod := CPU_PARALLEL_KDTREE | GPU_BRUTEFORCE.

#[global] Instance NearestNeighborMethod_eq_dec : EqDecision NearestNeighborMethod.
Proof. solve_decision. Defined.

(** The members of the [pcl::Registration] subobject the adapter touches. *)
Record Registration `{Values} := mkRegistration {
  reg_name_ : string;
  input_ : CloudPtr;
  target_ : CloudPtr;
  max_iterations_ : Z;
  transformation_epsilon_ : double;
  source_cloud_updated_ : bool;
  target_cloud_updated_ : bool
}.

Record FastVGICPCuda `{Values} {RegularizationMethod Core : Type} := mkFastVGICPCuda {
  registration : Registration;
  (* members of FastGICP and FastVGICP *)
  rotation_epsilon_ : double;
  k_correspondences_ : Z;
  regularization_method_ : RegularizationMethod;
  voxel_resolution_ : double;
  source_kdtree : list PointT;
  target_kdtree : list PointT;
  (* members of FastVGICPCuda *)
  neighbor_search_method_ : NearestNeighborMethod;
  vgicp_cuda : Core
}.
Arguments FastVGICPCuda {_} RegularizationMethod Core.
Arguments mkFastVGICPCuda {_ _ _}.

Section Adapter.
Context `{KdTreeSearch} {RegularizationMethod Core : Type}.
Context `{!VGICPCore RegularizationMethod Core}.

Abbreviation Adapter := (FastVGICPCuda RegularizationMethod Core).

(** The base-class methods the adapter delegates to.  The two setters of
    [pcl::Registration] see only that subobject; the solver of [FastGICP]
    runs on the whole object and calls back into it. *)
Variable Registration_setInputSource :
  CloudStore → CloudPtr → Registration → Registration.
Variable Registration_setInputTarget :
  CloudStore → CloudPtr → Registration → Registration.
Variable FastGICP_computeTransformation : Matrix4 → Adapter → Adapter.

Implicit Types (s : Adapter) (cloud : CloudPtr) (clouds : CloudStore).

(** *** Member updates *)

Definition with_registration (f : Registration → Registration) s : Adapter :=
  mkFastVGICPCuda (f (registration s)) (rotation_epsilon_ s)
    (k_correspondences_ s) (regularization_method_ s) (voxel_resolution_ s)
    (source_kdtree s) (target_kdtree s) (neighbor_search_method_ s)
    (vgicp_cuda s).

Definition with_core (f : Core → Core) s : Adapter :=
  mkFastVGICPCuda (registration s) (rotation_epsilon_ s)
    (k_correspondences_ s) (regularization_method_ s) (voxel_resolution_ s)
    (source_kdtree s) (target_kdtree s) (neighbor_search_method_ s)
    (f (vgicp_cuda s)).

Definition with_source_kdtree (kdtree : list PointT) s : Adapter :=
  mkFastVGICPCuda (registration s) (rotation_epsilon_ s)
    (k_correspondences_ s) (regularization_method_ s) (voxel_resolution_ s)
    kdtree (target_kdtree s) (neighbor_search_method_ s) (vgicp_cuda s).

Definition with_target_kdtree (kdtree : list PointT) s : Adapter :=
  mkFastVGICPCuda (registration s) (rotation_epsilon_ s)
    (k_correspondences_ s) (regularization_method_ s) (voxel_resolution_ s)
    (source_kdtree s) kdtree (neighbor_search_method_ s) (vgicp_cuda s).

Definition with_neighbor_search_method (m : NearestNeighborMethod) s : Adapter :=
  mkFastVGICPCuda (registration s) (rotation_epsilon_ s)
    (k_correspondences_ s) (regularization_method_ s) (voxel_resolution_ s)
    (source_kdtree s) (target_kdtree s) m (vgicp_cuda s).

Definition set_input_ (p : CloudPtr) (r : Registration) : Registration :=
  mkRegistration _ (reg_name_ r) p (target_ r) (max_iterations_ r)
    (transformation_epsilon_ r) (source_cloud_updated_ r)
    (target_cloud_updated_ r).

Definition set_target_ (p : CloudPtr) (r : Registration) : Registration :=
  mkRegistration _ (reg_name_ r) (input_ r) p (max_iterations_ r)
    (transformation_epsilon_ r) (source_cloud_updated_ r)
    (target_cloud_updated_ r).

Definition set_reg_name_ (name : string) (r : Registration) : Registration :=
  mkRegistration _ name (input_ r) (target_ r) (max_iterations_ r)
    (transformation_epsilon_ r) (source_cloud_updated_ r)
    (target_cloud_updated_ r).

(** *** Constructor

    [FastVGICP()] has run first; its results are the arguments. *)
Definition FastVGICPCuda_new (reg : Registration) (rotation_epsilon : double)
    (k_correspondences : Z) (regularization_method : RegularizationMethod)
    (voxel_resolution : double) (source_kdtree target_kdtree : list PointT)
    : Adapter :=
  let reg := set_reg_name_ "FastVGICPCuda" reg in
  let neighbor_search_method := CPU_PARALLEL_KDTREE in
  let core := core_new in
  let core := set_max_iterations (max_iterations_ reg) core in
  let core := set_rotation_epsilon rotation_epsilon core in
  let core := set_transformation_epsilon (transformation_epsilon_ reg) core in
  let core := set_resolution voxel_resolution core in
  mkFastVGICPCuda reg rotation_epsilon k_correspondences regularization_method
    voxel_resolution source_kdtree target_kdtree neighbor_search_method core.

(** *** Methods *)

Definition setNearesetNeighborSearchMethod (method : NearestNeighborMethod) s
    : Adapter :=
  with_neighbor_search_method method s.

Definition swapSourceAndTarget s : Adapter :=
  let s := with_core swap_source_and_target s in
  (* input_.swap(target_) *)
  with_registration
    (λ r, set_target_ (input_ r) (set_input_ (target_ r) r)) s.

Definition clearSource s : Adapter :=
  with_registration (set_input_ None) s.

Definition clearTarget s : Adapter :=
  with_registration (set_target_ None) s.

(** [None] is an abnormal exit: a null [cloud] dereferenced, or the search
    failing to allocate. *)
Definition setInputSource clouds cloud s : option Adapter :=
  (* the input cloud is the same as the previous one *)
  if decide (cloud = input_ (registration s)) then Some s else
  let s := with_registration (Registration_setInputSource clouds cloud) s in
  pts ← deref clouds cloud;
  let points := getVector3fMap <$> pts in
  let s := with_core (set_source_cloud points) s in
  s ← match neighbor_search_method_ s with
      | CPU_PARALLEL_KDTREE =>
          '(neighbors, kdtree) ←
            find_neighbors_parallel_kdtree (k_correspondences_ s) pts;
          let s := with_source_kdtree kdtree s in
          Some (with_core (set_source_neighbors (k_correspondences_ s) neighbors) s)
      | GPU_BRUTEFORCE =>
          Some (with_core (find_source_neighbors (k_correspondences_ s)) s)
      end;
  let s := with_core (calculate_source_covariances (regularization_method_ s)) s in
  let '(covs, core) := get_source_covariances (vgicp_cuda s) in
  Some (with_core (λ _, core) s).

Definition setInputTarget clouds cloud s : option Adapter :=
  (* the input cloud is the same as the previous one *)
  if decide (cloud = target_ (registration s)) then Some s else
  let s := with_registration (Registration_setInputTarget clouds cloud) s in
  pts ← deref clouds cloud;
  let points := getVector3fMap <$> pts in
  let s := with_core (set_target_cloud points) s in
  s ← match neighbor_search_method_ s with
      | CPU_PARALLEL_KDTREE =>
          '(neighbors, kdtree) ←
            find_neighbors_parallel_kdtree (k_correspondences_ s) pts;
          let s := with_target_kdtree kdtree s in
          Some (with_core (set_target_neighbors (k_correspondences_ s) neighbors) s)
      | GPU_BRUTEFORCE =>
          Some (with_core (find_target_neighbors (k_correspondences_ s)) s)
      end;
  let s := with_core (calculate_target_covariances (regularization_method_ s)) s in
  Some (with_core create_target_voxelmap s).

(** [output] is only handed on to the solver, whose result it is part of. *)
Definition computeTransformation (guess : Matrix4) s : Adapter :=
  let s := with_core (set_max_iterations (max_iterations_ (registration s))) s in
  let s := with_core (set_rotation_epsilon (rotation_epsilon_ s)) s in
  let s := with_core
    (set_transformation_epsilon (transformation_epsilon_ (registration s))) s in
  let s := with_core (set_resolution (voxel_resolution_ s)) s in
  FastGICP_computeTransformation guess s.

Definition update_correspondences (trans : Isometry3d) s : Adapter :=
  with_core (core_update_correspondences trans) s.

Definition update_mahalanobis (trans : Isometry3d) s : Adapter :=
  with_core (core_update_mahalanobis trans) s.

(** [H] and [b] are filled through the two pointers; they are returned here
    next to the error. *)
Definition compute_error (trans : Isometry3d) s
    : (double * Matrix6d * Vector6d) * Adapter :=
  let '(result, core) := core_compute_error trans (vgicp_cuda s) in
  (result, with_core (λ _, core) s).
End Adapter.

(** ** Observing the engine calls

    Any engine can be wrapped so that it also keeps the list of the calls it
    received, oldest first.  The adapter cannot tell the difference. *)

Inductive CoreCall `{Values} {RegularizationMethod : Type} :=
  | SetMaxIterations (n : Z)
  | SetRotationEpsilon (eps : double)
  | SetTransformationEpsilon (eps : double)
  | SetResolution (resolution : double)
  | SwapSourceAndTarget
  | SetSourceCloud (points : list Vector3f)
  | SetTargetCloud (points : list Vector3f)
  | SetSourceNeighbors (k : Z) (neighbors : list Z)
  | SetTargetNeighbors (k : Z) (neighbors : list Z)
  | FindSourceNeighbors (k : Z)
  | FindTargetNeighbors (k : Z)
  | CalculateSourceCovariances (method : RegularizationMethod)
  | CalculateTargetCovariances (method : RegularizationMethod)
  | GetSourceCovariances
  | CreateTargetVoxelmap
  | UpdateCorrespondences (trans : Isometry3d)
  | UpdateMahalanobis (trans : Isometry3d)
  | ComputeError (trans : Isometry3d).
Arguments CoreCall {_} RegularizationMethod.

Definition Logged `{Values} (RegularizationMethod Core : Type) : Type :=
  Core * list (CoreCall RegularizationMethod).

Section Logged.
Context `{Values} {RegularizationMethod Core : Type}.
Context `{!VGICPCore RegularizationMethod Core}.

Definition logged (call : CoreCall RegularizationMethod) (f : Core → Core)
    (c : Logged RegularizationMethod Core) : Logged RegularizationMethod Core :=
  (f c.1, c.2 ++ [call]).

Definition logged_out {A} (call : CoreCall RegularizationMethod)
    (f : Core → A * Core) (c : Logged RegularizationMethod Core)
    : A * Logged RegularizationMethod Core :=
  ((f c.1).1, ((f c.1).2, c.2 ++ [call])).

#[export] Instance Logged_core
    : VGICPCore RegularizationMethod (Logged RegularizationMethod Core) := {|
  core_new := (core_new, []);
  set_max_iterations n := logged (SetMaxIterations n) (set_max_iterations n);
  set_rotation_epsilon e := logged (SetRotationEpsilon e) (set_rotation_epsilon e);
  set_transformation_epsilon e :=
    logged (SetTransformationEpsilon e) (set_transformation_epsilon e);
  set_resolution r := logged (SetResolution r) (set_resolution r);
  swap_source_and_target := logged SwapSourceAndTarget swap_source_and_target;
  set_source_cloud pts := logged (SetSourceCloud pts) (set_source_cloud pts);
  set_target_cloud pts := logged (SetTargetCloud pts) (set_target_cloud pts);
  set_source_neighbors k nb :=
    logged (SetSourceNeighbors k nb) (set_source_neighbors k nb);
  set_target_neighbors k nb :=
    logged (SetTargetNeighbors k nb) (set_target_neighbors k nb);
  find_source_neighbors k := logged (FindSourceNeighbors k) (find_source_neighbors k);
  find_target_neighbors k := logged (FindTargetNeighbors k) (find_target_neighbors k);
  calculate_source_covariances m :=
    logged (CalculateSourceCovariances m) (calculate_source_covariances m);
  calculate_target_covariances m :=
    logged (CalculateTargetCovariances m) (calculate_target_covariances m);
  get_source_covariances := logged_out GetSourceCovariances get_source_covariances;
  create_target_voxelmap := logged CreateTargetVoxelmap create_target_voxelmap;
  core_update_correspondences t :=
    logged (UpdateCorrespondences t) (core_update_correspondences t);
  core_update_mahalanobis t :=
    logged (UpdateMahalanobis t) (core_update_mahalanobis t);
  core_compute_error t := logged_out (ComputeError t) (core_compute_error t)
|}.

(** The call by which the [switch] on the search method provides the
    neighbors of the source, respectively the target. *)
Definition source_search_call (method : NearestNeighborMethod) (k : Z)
    (neighbors : list Z) : CoreCall RegularizationMethod :=
  match method with
  | CPU_PARALLEL_KDTREE => SetSourceNeighbors k neighbors
  | GPU_BRUTEFORCE => FindSourceNeighbors k
  end.

Definition target_search_call (method : NearestNeighborMethod) (k : Z)
    (neighbors : list Z) : CoreCall RegularizationMethod :=
  match method with
  | CPU_PARALLEL_KDTREE => SetTargetNeighbors k neighbors
  | GPU_BRUTEFORCE => FindTargetNeighbors k
  end.

(** The calls the adapter's engine has received so far. *)
Definition calls (s : FastVGICPCuda RegularizationMethod
                        (Logged RegularizationMethod Core))
    : list (CoreCall RegularizationMethod) :=
  (vgicp_cuda s).2.
End Logged.

(** ** Conditions on an assignment *)

Section SearchConditions.
Context `{KdTreeSearch} {RegularizationMethod Core : Type}.
Implicit Types (s : FastVGICPCuda RegularizationMethod Core).

(** Under the kd-tree mode the host search must succeed; the brute-force mode
    runs no search on the host. *)
Definition search_runs s (pts : list PointT) : Prop :=
  neighbor_search_method_ s = CPU_PARALLEL_KDTREE →
  within_int (k_correspondences_ s) (length pts).

(** [neighbors] is what the kd-tree search returned, when that is the mode. *)
Definition searched s (pts : list PointT) (neighbors : list Z) : Prop :=
  neighbor_search_method_ s = CPU_PARALLEL_KDTREE →
  find_neighbors_parallel_kdtree (k_correspondences_ s) pts = Some (neighbors, pts).
End SearchConditions.

(** ** Sides of the engine and optimizer callbacks *)

Section CallKinds.
Context `{Values} {RegularizationMethod Core : Type}.
Context `{!VGICPCore RegularizationMethod Core}.

(** The engine calls that concern the source side, respectively the target
    side (the voxel map is built over the target). *)
Definition source_call (call : CoreCall RegularizationMethod) : bool :=
  match call with
  | SetSourceCloud _ | SetSourceNeighbors _ _ | FindSourceNeighbors _
  | CalculateSourceCovariances _ | GetSourceCovariances => true
  | _ => false
  end.

Definition target_call (call : CoreCall RegularizationMethod) : bool :=
  match call with
  | SetTargetCloud _ | SetTargetNeighbors _ _ | FindTargetNeighbors _
  | CalculateTargetCovariances _ | CreateTargetVoxelmap => true
  | _ => false
  end.

(** An invocation of one of the three methods the optimizer calls back:
    [update_correspondences], [update_mahalanobis], [compute_error]. *)
Inductive Callback :=
  | OnCorrespondences (trans : Isometry3d)
  | OnMahalanobis (trans : Isometry3d)
  | OnError (trans : Isometry3d).

Definition invoke (s : FastVGICPCuda RegularizationMethod Core) (cb : Callback)
    : FastVGICPCuda RegularizationMethod Core :=
  match cb with
  | OnCorrespondences trans => update_correspondences trans s
  | OnMahalanobis trans => update_mahalanobis trans s
  | OnError trans => (compute_error trans s).2
  end.

(** The engine call behind a callback. *)
Definition callback_call (cb : Callback) : CoreCall RegularizationMethod :=
  match cb with
  | OnCorrespondences trans => UpdateCorrespondences trans
  | OnMahalanobis trans => UpdateMahalanobis trans
  | OnError trans => ComputeError trans
  end.
End CallKinds.

(** ** A reference engine

    The sources of the backend engine [FastVGICPCudaCore]
    ([fast_gicp/cuda/fast_vgicp_cuda.cuh]) are not part of
    [fast_vgicp_cuda_impl.hpp]; this engine follows the spec.  Derived data
    are rebuilt as a whole, never updated in place, so each is represented by
    the inputs it was last built from, and the numerical kernels that read
    them are parameters. *)

Section ReferenceEngine.
Context `{Values} {RegularizationMethod : Type}.

(** Modelled from the spec: the Neighbor Set of a side of the absent engine,
    either uploaded by the adapter (exact search on the host) or found by the
    engine's own brute-force search over the uploaded points. *)
Inductive NeighborSet :=
  | UploadedNeighbors (k : Z) (indices : list Z)
  | SearchedNeighbors (k : Z) (points : list Vector3f).

(** Modelled from the spec: the covariances of a side of the absent engine,
    computed from the side's points and neighbor set and regularized by the
    selected method. *)
Record CovarianceSet := mkCovarianceSet {
  cov_method : RegularizationMethod;
  cov_points : list Vector3f;
  cov_neighbors : option NeighborSet
}.

(** Modelled from the spec: one side (source or target) of the absent
    engine: uploaded points, neighbor set, covariances. *)
Record CloudSide := mkCloudSide {
  side_points : list Vector3f;
  side_neighbors : option NeighborSet;
  side_covariances : option CovarianceSet
}.

(** Modelled from the spec: the Voxel Map of the absent engine, built from
    the target's points and covariances at a resolution. *)
Record VoxelMap := mkVoxelMap {
  vm_resolution : option double;
  vm_points : list Vector3f;
  vm_covariances : option CovarianceSet
}.

(** Modelled from the spec: the configuration the absent engine is handed
    (max iterations, rotation and translation epsilons, voxel resolution). *)
Record EngineConfig := mkEngineConfig {
  cfg_max_iterations : option Z;
  cfg_rotation_epsilon : option double;
  cfg_transformation_epsilon : option double;
  cfg_resolution : option double
}.

(** Modelled from the spec: the state of the absent engine
    [FastVGICPCudaCore]: configuration, the two sides, the voxel map, and the
    transforms at which correspondences and weighting were last computed. *)
Record ReferenceCore := mkReferenceCore {
  rc_config : EngineConfig;
  rc_source : CloudSide;
  rc_target : CloudSide;
  rc_voxelmap : option VoxelMap;
  rc_correspondences : option Isometry3d;
  rc_mahalanobis : option Isometry3d
}.

Variable covariance_kernel : CovarianceSet → list Matrix3f.
Variable error_kernel : ReferenceCore → Isometry3d → double * Matrix6d * Vector6d.

Definition rc_with_config (f : EngineConfig → EngineConfig) (c : ReferenceCore) :=
  mkReferenceCore (f (rc_config c)) (rc_source c) (rc_target c) (rc_voxelmap c)
    (rc_correspondences c) (rc_mahalanobis c).

Definition rc_with_source (f : CloudSide → CloudSide) (c : ReferenceCore) :=
  mkReferenceCore (rc_config c) (f (rc_source c)) (rc_target c) (rc_voxelmap c)
    (rc_correspondences c) (rc_mahalanobis c).

Definition rc_with_target (f : CloudSide → CloudSide) (c : ReferenceCore) :=
  mkReferenceCore (rc_config c) (rc_source c) (f (rc_target c)) (rc_voxelmap c)
    (rc_correspondences c) (rc_mahalanobis c).

(** Modelled from the spec: the absent engine accepts an uploaded point
    set. *)
Definition side_upload (points : list Vector3f) (sd : CloudSide) : CloudSide :=
  mkCloudSide points (side_neighbors sd) (side_covariances sd).

(** Modelled from the spec: the absent engine accepts a neighbor set. *)
Definition side_set_neighbors (nb : NeighborSet) (sd : CloudSide) : CloudSide :=
  mkCloudSide (side_points sd) (Some nb) (side_covariances sd).

(** Modelled from the spec: the absent engine's find-neighbors operation,
    an exhaustive search against all points of the side. *)
Definition side_search (k : Z) (sd : CloudSide) : CloudSide :=
  side_set_neighbors (SearchedNeighbors k (side_points sd)) sd.

(** Modelled from the spec: the absent engine's compute-covariances
    operation, from the side's points and neighbor set. *)
Definition side_calculate (m : RegularizationMethod) (sd : CloudSide) : CloudSide :=
  mkCloudSide (side_points sd) (side_neighbors sd)
    (Some (mkCovarianceSet m (side_points sd) (side_neighbors sd))).

(** Modelled from the spec: the absent engine as constructed, holding
    nothing. *)
Definition rc_new : ReferenceCore :=
  mkReferenceCore (mkEngineConfig None None None None)
    (mkCloudSide [] None None) (mkCloudSide [] None None) None None None.

(** Modelled from the spec: the absent engine's swap, which exchanges its
    internal source and target state symmetrically and recomputes nothing. *)
Definition rc_swap (c : ReferenceCore) : ReferenceCore :=
  mkReferenceCore (rc_config c) (rc_target c) (rc_source c) (rc_voxelmap c)
    (rc_correspondences c) (rc_mahalanobis c).

(** Modelled from the spec: the absent engine's build-voxel-map operation,
    a rebuild as a whole from the target cloud, its covariances and the
    resolution. *)
Definition rc_create_target_voxelmap (c : ReferenceCore) : ReferenceCore :=
  mkReferenceCore (rc_config c) (rc_source c) (rc_target c)
    (Some (mkVoxelMap (cfg_resolution (rc_config c))
             (side_points (rc_target c)) (side_covariances (rc_target c))))
    (rc_correspondences c) (rc_mahalanobis c).

(** Modelled from the spec: the absent engine's [updateCorrespondences],
    which produces a fresh Correspondence Set and discards the previous
    one. *)
Definition rc_update_correspondences (t : Isometry3d) (c : ReferenceCore) :=
  mkReferenceCore (rc_config c) (rc_source c) (rc_target c) (rc_voxelmap c)
    (Some t) (rc_mahalanobis c).

(** Modelled from the spec: the absent engine's [updateMahalanobis], which
    recomputes the weighting matrices for the transform. *)
Definition rc_update_mahalanobis (t : Isometry3d) (c : ReferenceCore) :=
  mkReferenceCore (rc_config c) (rc_source c) (rc_target c) (rc_voxelmap c)
    (rc_correspondences c) (Some t).

(** Modelled from the spec: reading the source covariances back from the
    absent engine. *)
Definition rc_get_source_covariances (c : ReferenceCore) : list Matrix3f * ReferenceCore :=
  (from_option covariance_kernel [] (side_covariances (rc_source c)), c).

(** Modelled from the spec: the operations of the absent engine
    [FastVGICPCudaCore]; [computeError] has no side effects beyond producing
    its three outputs. *)
#[export] Instance Reference_core : VGICPCore RegularizationMethod ReferenceCore := {|
  core_new := rc_new;
  set_max_iterations n := rc_with_config (λ g,
    mkEngineConfig (Some n) (cfg_rotation_epsilon g)
      (cfg_transformation_epsilon g) (cfg_resolution g));
  set_rotation_epsilon e := rc_with_config (λ g,
    mkEngineConfig (cfg_max_iterations g) (Some e)
      (cfg_transformation_epsilon g) (cfg_resolution g));
  set_transformation_epsilon e := rc_with_config (λ g,
    mkEngineConfig (cfg_max_iterations g) (cfg_rotation_epsilon g)
      (Some e) (cfg_resolution g));
  set_resolution r := rc_with_config (λ g,
    mkEngineConfig (cfg_max_iterations g) (cfg_rotation_epsilon g)
      (cfg_transformation_epsilon g) (Some r));
  swap_source_and_target := rc_swap;
  set_source_cloud pts := rc_with_source (side_upload pts);
  set_target_cloud pts := rc_with_target (side_upload pts);
  set_source_neighbors k nb := rc_with_source (side_set_neighbors (UploadedNeighbors k nb));
  set_target_neighbors k nb := rc_with_target (side_set_neighbors (UploadedNeighbors k nb));
  find_source_neighbors k := rc_with_source (side_search k);
  find_target_neighbors k := rc_with_target (side_search k);
  calculate_source_covariances m := rc_with_source (side_calculate m);
  calculate_target_covariances m := rc_with_target (side_calculate m);
  get_source_covariances := rc_get_source_covariances;
  create_target_voxelmap := rc_create_target_voxelmap;
  core_update_correspondences := rc_update_correspondences;
  core_update_mahalanobis := rc_update_mahalanobis;
  core_compute_error t c := (error_kernel c t, c)
|}.
End ReferenceEngine.

(** ** The outer solver

    [FastGICP::computeTransformation], the base-class optimization
    ([fast_gicp/gicp/fast_gicp.hpp]), is not part of
    [fast_vgicp_cuda_impl.hpp]; the adapter's properties hold for any solver.
    The one below follows the spec and is used to run examples. *)

Section Solver.
Context `{Values} {RegularizationMethod Core : Type}.
Context `{!VGICPCore RegularizationMethod Core}.
Variable isometry_of_guess : Matrix4 → Isometry3d.
Variable next_transform :
  Isometry3d → double * Matrix6d * Vector6d → option Isometry3d.

(** Modelled from the spec: the iterations of the absent outer solver.  Once
    per iteration it invokes [update_correspondences], [update_mahalanobis]
    and [compute_error] for the current transform, in that order, then
    updates the transform from the linearization; it stops on convergence or
    when the iteration budget is exhausted.  The linear solve and the
    convergence test are the parameter [next_transform]. *)
Fixpoint solver_iterations (budget : nat) (trans : Isometry3d)
    (s : FastVGICPCuda RegularizationMethod Core)
    : FastVGICPCuda RegularizationMethod Core :=
  match budget with
  | O => s
  | S budget =>
      let s := update_correspondences trans s in
      let s := update_mahalanobis trans s in
      let '(linearization, s) := compute_error trans s in
      match next_transform trans linearization with
      | Some trans => solver_iterations budget trans s
      | None => s
      end
  end.

(** Modelled from the spec: the absent [FastGICP::computeTransformation],
    which runs the iterations from the initial guess within the configured
    iteration budget. *)
Definition lsq_computeTransformation (guess : Matrix4)
    (s : FastVGICPCuda RegularizationMethod Core)
    : FastVGICPCuda RegularizationMethod Core :=
  solver_iterations (Z.to_nat (max_iterations_ (registration s)))
    (isometry_of_guess guess) s.
End Solver.

(** ** A concrete instantiation on integer grid points

    Points with integer coordinates, an exact brute-force search in place of
    the kd-tree, and the PCL setters.  Used to run the adapter on small
    inputs. *)

Module Grid.
Definition Vec3 : Type := Z * Z * Z.

Definition sub3 (p q : Vec3) : Vec3 :=
  (p.1.1 - q.1.1, p.1.2 - q.1.2, p.2 - q.2).
Definition add3 (p q : Vec3) : Vec3 :=
  (p.1.1 + q.1.1, p.1.2 + q.1.2, p.2 + q.2).
Definition norm2 (p : Vec3) : Z :=
  p.1.1 * p.1.1 + p.1.2 * p.1.2 + p.2 * p.2.
Definition sqdist (p q : Vec3) : Z := norm2 (sub3 p q).

#[export] Instance values : Values := {|
  PointT := Vec3;
  Vector3f := Vec3;
  Matrix3f := list Z;
  double := Z;
  Isometry3d := Vec3;          (* translations of the grid *)
  Matrix4 := Vec3;
  Matrix6d := unit;
  Vector6d := unit;
  getVector3fMap := id
|}.

(** Modelled from the spec: the regularization method, one of
    plane-assumption, min-eigenvalue floor, normalized min-eigenvalue floor
    and Frobenius-preserving (the enumeration is declared outside
    [fast_vgicp_cuda_impl.hpp]). *)
Inductive RegMethod := PLANE | MIN_EIG | NORMALIZED_MIN_EIG | FROBENIUS.

(** Stable insertion sort of indices by a key. *)
Fixpoint insert_by (key : nat → Z) (i : nat) (l : list nat) : list nat :=
  match l with
  | [] => [i]
  | j :: l' => if decide (key i ≤ key j) then i :: l else j :: insert_by key i l'
  end.

Definition sort_by (key : nat → Z) (l : list nat) : list nat :=
  foldr (insert_by key) [] l.

(** The [k] indexed points closest to [pt], closest first; all of them when
    fewer than [k] are indexed. *)
Definition nearest (tree : list Vec3) (pt : Vec3) (k : Z) : list Z :=
  let key j := from_option (sqdist pt) 0 (tree !! j) in
  Z.of_nat <$> take (Z.to_nat k) (sort_by key (seq 0 (length tree))).

#[export] Instance kdtree : KdTreeSearch := {| nearestKSearch := nearest |}.

(** [pcl::Registration::setInputSource] and [setInputTarget] as PCL defines
    them: the source setter stores the pointer; the target setter refuses an
    empty cloud. *)
Definition pcl_setInputSource (clouds : CloudStore) (cloud : CloudPtr)
    (r : Registration) : Registration :=
  mkRegistration _ (reg_name_ r) cloud (target_ r) (max_iterations_ r)
    (transformation_epsilon_ r) true (target_cloud_updated_ r).

Definition pcl_setInputTarget (clouds : CloudStore) (cloud : CloudPtr)
    (r : Registration) : Registration :=
  match deref clouds cloud with
  | Some [] => r
  | _ => mkRegistration _ (reg_name_ r) (input_ r) cloud (max_iterations_ r)
           (transformation_epsilon_ r) (source_cloud_updated_ r) true
  end.

(** Kernels of the reference engine on the grid: per point, the scatter
    matrix of its neighbors around the point; and the summed squared
    distance from each translated source point to its closest target
    point. *)
Definition scatter (p : Vec3) (neighbors : list Vec3) : list Z :=
  let ds := (λ q, sub3 q p) <$> neighbors in
  let entry (a b : Vec3 → Z) := foldr Z.add 0 ((λ d, a d * b d) <$> ds) in
  let x (d : Vec3) := d.1.1 in
  let y (d : Vec3) := d.1.2 in
  let z (d : Vec3) := d.2 in
  [entry x x; entry x y; entry x z;
   entry y x; entry y y; entry y z;
   entry z x; entry z y; entry z z].

Definition neighbors_of (nb : option (@NeighborSet values)) (i : nat) (p : Vec3)
    : list Z :=
  match nb with
  | Some (UploadedNeighbors k indices) =>
      take (Z.to_nat k) (drop (i * Z.to_nat k) indices)
  | Some (SearchedNeighbors k points) => nearest points p k
  | None => []
  end.

Definition covariance_kernel (cs : @CovarianceSet values RegMethod) : list (list Z) :=
  imap (λ i p,
    scatter p (omap (λ j, cov_points cs !! Z.to_nat j)
                 (neighbors_of (cov_neighbors cs) i p)))
    (cov_points cs).

Definition closest_sqdist (targets : list Vec3) (p : Vec3) : Z :=
  match targets with
  | [] => 0
  | t :: ts => foldr (λ q m, Z.min (sqdist p q) m) (sqdist p t) ts
  end.

Definition error_kernel (c : @ReferenceCore values RegMethod) (trans : Vec3)
    : Z * unit * unit :=
  (foldr Z.add 0
     ((λ p, closest_sqdist (side_points (rc_target c)) (add3 p trans))
        <$> side_points (rc_source c)), (), ()).

#[export] Instance engine : VGICPCore RegMethod ReferenceCore :=
  Reference_core covariance_kernel error_kernel.

(** A step of the solver on the grid: stop as soon as the error is zero,
    otherwise keep the transform. *)
Definition next_transform (trans : Vec3) (lin : Z * unit * unit) : option Vec3 :=
  if decide (lin.1.1 = 0) then None else Some trans.

Definition solver {Core} `{!VGICPCore RegMethod Core}
    : Vec3 → FastVGICPCuda RegMethod Core → FastVGICPCuda RegMethod Core :=
  lsq_computeTransformation id next_transform.

(** The clouds in the store; the one at address 4 has the points of the
    one at address 1. *)
Definition cloud_a : list PointT := [(0, 0, 0); (1, 0, 0); (0, 2, 0); (5, 5, 5)].
Definition cloud_b : list PointT := [(1, 0, 0); (2, 0, 0); (1, 2, 0); (6, 5, 5)].
Definition cloud_small : list PointT := [(0, 0, 0); (3, 0, 0)].

Definition clouds : CloudStore :=
  <[1%positive := cloud_a]> (<[2%positive := cloud_b]>
    (<[3%positive := cloud_small]> (<[4%positive := cloud_a]> ∅))).

Definition setSource := setInputSource (Core := Logged RegMethod ReferenceCore)
  pcl_setInputSource clouds.
Definition setTarget := setInputTarget (Core := Logged RegMethod ReferenceCore)
  pcl_setInputTarget clouds.

(** The same adapter with another value of [k_correspondences_]. *)
Definition with_k {Core} (k : Z) (s : FastVGICPCuda RegMethod Core)
    : FastVGICPCuda RegMethod Core :=
  mkFastVGICPCuda (registration s) (rotation_epsilon_ s) k
    (regularization_method_ s) (voxel_resolution_ s) (source_kdtree s)
    (target_kdtree s) (neighbor_search_method_ s) (vgicp_cuda s).

(** Two transforms: the identity and the shift by one along x, which
    carries [cloud_a] onto [cloud_b]. *)
Definition identity : Isometry3d := (0, 0, 0).
Definition shift_x : Isometry3d := (1, 0, 0).

(** An adapter over the bare reference engine, with [cloud_a] assigned as
    source and [cloud_b] as target, two neighbors per point and a budget of
    three iterations. *)
Definition fresh_bare : FastVGICPCuda RegMethod ReferenceCore :=
  FastVGICPCuda_new (mkRegistration _ "" None None 3 5 false false)
    2 2 PLANE 1 [] [].

Definition assigned_bare : FastVGICPCuda RegMethod ReferenceCore :=
  default fresh_bare
    (s ← setInputSource pcl_setInputSource clouds (Some 1%positive) fresh_bare;
     setInputTarget pcl_setInputTarget clouds (Some 2%positive) s).

(** The same over the logged engine. *)
Definition fresh : FastVGICPCuda RegMethod (Logged RegMethod ReferenceCore) :=
  FastVGICPCuda_new (mkRegistration _ "" None None 3 5 false false)
    2 2 PLANE 1 [] [].

Definition assigned : FastVGICPCuda RegMethod (Logged RegMethod ReferenceCore) :=
  default fresh (s ← setSource (Some 1%positive) fresh; setTarget (Some 2%positive) s).

(** The registration subobject [fresh] was constructed over. *)
Definition new_registration : Registration :=
  mkRegistration _ "" None None 3 5 false false.

(** The store with one more cloud, an empty one at address 5. *)
Definition clouds_with_empty : CloudStore := <[5%positive := []]> clouds.

(** An adapter asked for a negative number of correspondences. *)
Definition negative_k : FastVGICPCuda RegMethod (Logged RegMethod ReferenceCore) :=
  with_k (-1) fresh.

(** The bare adapter after [cloud_a] alone was assigned as source. *)
Definition source_bare : FastVGICPCuda RegMethod ReferenceCore :=
  default fresh_bare
    (setInputSource pcl_setInputSource clouds (Some 1%positive) fresh_bare).
End Grid.

(** * Properties *)

(** ** The neighbor search *)

Section NeighborProperties.
Context `{KdTreeClips}.
Implicit Types (cloud : list PointT) (neighbors : list Z) (sched : list nat).

Lemma kdtree_iteration_length k cloud neighbors i :
  length (kdtree_iteration k cloud neighbors i) = length neighbors.
Proof.
  unfold kdtree_iteration. destruct (cloud !! i); [|done].
  apply length_inserts.
Qed.

Lemma kdtree_loop_length sched k cloud neighbors :
  length (kdtree_loop sched k cloud neighbors) = length neighbors.
Proof.
  unfold kdtree_loop. revert neighbors.
  induction sched as [|i sched IH]; intros neighbors; [done|].
  simpl. rewrite IH. apply kdtree_iteration_length.
Qed.

Lemma slot_arith (K i j len : nat) :
  (len ≤ K)%nat →
  (i * K ≤ j < i * K + len)%nat ↔ ((j `div` K)%nat = i ∧ (j `mod` K < len)%nat).
Proof.
  intros Hlen. destruct (decide (K = 0%nat)) as [->|HK].
  { simpl. split; lia. }
  pose proof (Nat.div_mod_eq j K) as Hj.
  pose proof (Nat.mod_upper_bound j K HK) as Hm.
  split.
  - intros [Hlo Hhi].
    assert ((j `div` K)%nat = i) as Hq.
    { symmetry. apply (Nat.div_unique j K i (j - i * K)); lia. }
    split; [done|]. subst i. lia.
  - intros [<- Hlt]. lia.
Qed.

(** A single iteration changes position [j] only if it owns it. *)
Lemma kdtree_iteration_lookup k cloud neighbors i j :
  0 ≤ k → (j < length neighbors)%nat →
  kdtree_iteration k cloud neighbors i !! j =
    if decide ((j `div` Z.to_nat k)%nat = i)
    then from_option Some (neighbors !! j) (slot_value k cloud j)
    else neighbors !! j.
Proof.
  intros Hk Hj. unfold kdtree_iteration, slot_value.
  destruct (cloud !! i) as [pt|] eqn:Hpt.
  - pose proof (nearestKSearch_length cloud pt k Hk) as Hlen.
    replace (Z.to_nat (Z.of_nat i * k)) with (i * Z.to_nat k)%nat by lia.
    set (found := nearestKSearch cloud pt k) in *.
    pose proof (slot_arith (Z.to_nat k) i j (length found)) as Hslot.
    destruct (decide ((i * Z.to_nat k ≤ j < i * Z.to_nat k + length found)%nat))
      as [Hin|Hout].
    + rewrite list_lookup_inserts by done.
      destruct Hslot as [[Hq Hr] _]; [lia|done|].
      rewrite decide_True by done. rewrite Hq, Hpt. simpl. fold found.
      replace (j - i * Z.to_nat k)%nat with (j `mod` Z.to_nat k)%nat.
      * destruct (lookup_lt_is_Some_2 found _ Hr) as [v Hv]. by rewrite Hv.
      * subst i. pose proof (Nat.div_mod_eq j (Z.to_nat k)). lia.
    + assert (list_inserts (i * Z.to_nat k) found neighbors !! j = neighbors !! j)
        as ->.
      { destruct (decide (j < i * Z.to_nat k)%nat).
        - by apply list_lookup_inserts_lt.
        - apply list_lookup_inserts_ge. lia. }
      case_decide as Hq; [|done]. rewrite Hq, Hpt. simpl. fold found.
      rewrite (lookup_ge_None_2 found); [done|].
      apply Nat.nlt_ge. intros Hr. apply Hout, Hslot; [lia|done].
  - case_decide as Hq; [|done]. by rewrite Hq, Hpt.
Qed.

(** After the loop, a position holds the value of its owner if the owner is
    in the schedule, whatever the order of the schedule. *)
Lemma kdtree_loop_lookup sched k cloud neighbors j :
  0 ≤ k → (j < length neighbors)%nat →
  kdtree_loop sched k cloud neighbors !! j =
    if decide ((j `div` Z.to_nat k)%nat ∈ sched)
    then from_option Some (neighbors !! j) (slot_value k cloud j)
    else neighbors !! j.
Proof.
  intros Hk. unfold kdtree_loop. revert neighbors.
  induction sched as [|i sched IH]; intros neighbors Hj; cbn [foldl].
  { rewrite decide_False; [done|]. apply not_elem_of_nil. }
  rewrite IH by (by rewrite kdtree_iteration_length).
  rewrite kdtree_iteration_lookup by done.
  destruct (decide ((j `div` Z.to_nat k)%nat = i)) as [Hq|Hq].
  - rewrite (decide_True (P := _ ∈ i :: sched)) by (rewrite Hq; left).
    destruct (slot_value k cloud j); simpl; by case_decide.
  - destruct (decide ((j `div` Z.to_nat k)%nat ∈ sched)) as [Hs|Hs].
    + rewrite decide_True; [done|]. by right.
    + rewrite decide_False; [done|].
      intros [?|?]%elem_of_cons; done.
Qed.

(** Schedules with the same iterations leave the same vector. *)
Lemma kdtree_loop_schedule sched1 sched2 k cloud neighbors :
  0 ≤ k → sched1 ≡ₚ sched2 →
  kdtree_loop sched1 k cloud neighbors = kdtree_loop sched2 k cloud neighbors.
Proof.
  intros Hk Hperm. apply list_eq. intros j.
  destruct (decide (j < length neighbors)%nat) as [Hj|Hj].
  - rewrite !kdtree_loop_lookup by done.
    destruct (decide ((j `div` Z.to_nat k)%nat ∈ sched1)) as [Hs|Hs].
    + rewrite decide_True; [done|]. by rewrite <-Hperm.
    + rewrite decide_False; [done|]. by rewrite <-Hperm.
  - rewrite !lookup_ge_None_2; [done|..]; rewrite kdtree_loop_length; lia.
Qed.

Lemma neighbors_alloc_Some k (size : nat) :
  within_int k size →
  neighbors_alloc k size = Some (replicate (size * Z.to_nat k)%nat 0).
Proof.
  intros (? & ? & ?). unfold neighbors_alloc.
  rewrite !decide_False; [done|lia..].
Qed.
End NeighborProperties.

(** Within the range of [int] the search returns, and the kd-tree then
    indexes the searched cloud.  This needs nothing of the kd-tree. *)
Lemma find_neighbors_returns `{KdTreeSearch} (k : Z) (pts : list PointT) :
  within_int k (length pts) →
  ∃ neighbors, find_neighbors_parallel_kdtree k pts = Some (neighbors, pts).
Proof.
  intros Hrange.
  unfold find_neighbors_parallel_kdtree, find_neighbors_parallel_kdtree_sched.
  rewrite neighbors_alloc_Some by done. simpl. by eexists.
Qed.

(** C7.  The CPU-parallel search is deterministic.  Whatever order the worker
    threads take the loop iterations in, the returned vector is the same, and
    it is the one obtained in index order; so two runs on the same cloud and
    [k] return equal vectors.  The reason is that an iteration writes only
    into its own slot: iteration [i] leaves every position outside
    [i*k .. i*k+k-1] as it found it. *)
Theorem find_neighbors_schedule_independent `{KdTreeClips}
    (sched1 sched2 : list nat) (k : Z) (cloud : list PointT) :
  sched1 ≡ₚ seq 0 (length cloud) →
  sched2 ≡ₚ seq 0 (length cloud) →
  find_neighbors_parallel_kdtree_sched sched1 k cloud =
    find_neighbors_parallel_kdtree_sched sched2 k cloud
  ∧ find_neighbors_parallel_kdtree_sched sched1 k cloud =
      find_neighbors_parallel_kdtree k cloud
  ∧ ∀ (neighbors : list Z) (i j : nat),
      0 ≤ k → (j < length neighbors)%nat → (j `div` Z.to_nat k)%nat ≠ i →
      kdtree_iteration k cloud neighbors i !! j = neighbors !! j.
Proof.
  intros Hs1 Hs2.
  assert (∀ sched, sched ≡ₚ seq 0 (length cloud) →
    find_neighbors_parallel_kdtree_sched sched k cloud =
      find_neighbors_parallel_kdtree k cloud) as Hcanon.
  { intros sched Hs.
    unfold find_neighbors_parallel_kdtree, find_neighbors_parallel_kdtree_sched.
    destruct (neighbors_alloc k (length cloud)) as [neighbors|] eqn:Halloc;
      [|done].
    simpl. do 2 f_equal.
    destruct (decide (0 ≤ k)) as [Hk|Hk].
    - by apply kdtree_loop_schedule.
    - unfold neighbors_alloc in Halloc.
      destruct cloud as [|pt cloud].
      + simpl in Hs. by apply Permutation_nil_r in Hs as ->.
      + rewrite decide_True in Halloc; [done|]. simpl. lia. }
  split; [by rewrite !Hcanon|]. split; [by apply Hcanon|].
  intros neighbors i j Hk Hj Hne.
  rewrite kdtree_iteration_lookup by done. by rewrite decide_False.
Qed.

(** C1, as the code has it.  Within the range of [int] and for [k >= 0] the
    search returns normally, with [size * k] entries, and query point [i]'s
    indices start at position [i * k].  When the cloud has at least [k]
    points, positions [i*k .. i*k+k-1] hold exactly the [k] indices found for
    point [i].  No check of the number of points is made. *)
Theorem find_neighbors_slots `{KdTreeClips} (k : Z) (cloud : list PointT) :
  within_int k (length cloud) →
  ∃ neighbors : list Z,
    find_neighbors_parallel_kdtree k cloud = Some (neighbors, cloud)
    ∧ length neighbors = (length cloud * Z.to_nat k)%nat
    ∧ ∀ (i : nat) (pt : PointT), cloud !! i = Some pt →
        let found := nearestKSearch cloud pt k in
        take (length found) (drop (i * Z.to_nat k) neighbors) = found
        ∧ ((Z.to_nat k ≤ length cloud)%nat →
           length found = Z.to_nat k
           ∧ take (Z.to_nat k) (drop (i * Z.to_nat k) neighbors) = found).
Proof.
  intros Hrange. pose proof Hrange as (Hk & _ & _).
  unfold find_neighbors_parallel_kdtree, find_neighbors_parallel_kdtree_sched.
  rewrite neighbors_alloc_Some by done. simpl.
  eexists. split; [done|].
  set (K := Z.to_nat k). set (n := length cloud).
  split; [by rewrite kdtree_loop_length, length_replicate|].
  intros i pt Hpt. set (found := nearestKSearch cloud pt k).
  pose proof (nearestKSearch_length cloud pt k Hk) as Hlen. fold found K n in Hlen.
  assert (i < n)%nat as Hi by (by eapply lookup_lt_Some).
  assert (take (length found)
            (drop (i * K) (kdtree_loop (seq 0 n) k cloud (replicate (n * K) 0)))
          = found) as Hslot.
  { apply list_eq. intros j.
    destruct (decide (j < length found)%nat) as [Hj|Hj].
    - rewrite lookup_take_lt, lookup_drop by done.
      assert (i * K + j < n * K)%nat as Hpos by nia.
      rewrite kdtree_loop_lookup by (by rewrite ?length_replicate).
      unfold slot_value. fold K.
      destruct (slot_arith K i (i * K + j) (length found)) as [[Hq Hr] _];
        [lia|lia|].
      rewrite decide_True by (rewrite Hq; apply elem_of_seq; lia).
      rewrite Hq, Hpt. simpl. fold found.
      replace ((i * K + j) `mod` K)%nat with j.
      + destruct (lookup_lt_is_Some_2 found j Hj) as [v Hv]. by rewrite Hv.
      + apply (Nat.mod_unique _ K i); lia.
    - rewrite lookup_take_ge by lia. symmetry. apply lookup_ge_None_2. lia. }
  split; [done|].
  intros Henough. assert (length found = K) as HK by lia.
  split; [done|]. by rewrite <-HK at 1.
Qed.

(** ** The calls issued by the adapter *)

Section CallProperties.
Context `{KdTreeSearch} {RegularizationMethod Core : Type}.
Context `{!VGICPCore RegularizationMethod Core}.

Abbreviation LAdapter :=
  (FastVGICPCuda RegularizationMethod (Logged RegularizationMethod Core)).

Variable Registration_setInputSource :
  CloudStore → CloudPtr → Registration → Registration.
Variable Registration_setInputTarget :
  CloudStore → CloudPtr → Registration → Registration.

Implicit Types (s : LAdapter) (cloud : CloudPtr) (clouds : CloudStore).

Lemma search_runs_searched s pts :
  search_runs s pts → ∃ neighbors, searched s pts neighbors.
Proof.
  intros Hruns. unfold searched.
  destruct (neighbor_search_method_ s) eqn:Hm.
  - destruct (find_neighbors_returns (k_correspondences_ s) pts) as [neighbors ?];
      [by apply Hruns|].
    by exists neighbors.
  - by exists [].
Qed.

(** Assigning a cloud other than the held one: the calls, in order. *)
Lemma setInputSource_calls clouds cloud pts s :
  cloud ≠ input_ (registration s) →
  deref clouds cloud = Some pts →
  search_runs s pts →
  ∃ s' neighbors,
    setInputSource Registration_setInputSource clouds cloud s = Some s'
    ∧ searched s pts neighbors
    ∧ calls s' = calls s ++
        [SetSourceCloud (getVector3fMap <$> pts);
         source_search_call (neighbor_search_method_ s) (k_correspondences_ s) neighbors;
         CalculateSourceCovariances (regularization_method_ s);
         GetSourceCovariances].
Proof.
  intros Hnew Hpts Hruns.
  destruct (search_runs_searched s pts Hruns) as [neighbors Hfind].
  unfold setInputSource. rewrite decide_False by done. rewrite Hpts. simpl.
  unfold searched in *.
  destruct (neighbor_search_method_ s) eqn:Hm; simpl.
  - rewrite Hfind by done. simpl. eexists _, neighbors.
    split; [done|]. split; [done|].
    unfold calls. simpl. by rewrite <-!app_assoc.
  - eexists _, neighbors. split; [done|]. split; [done|].
    unfold calls. simpl. by rewrite <-!app_assoc.
Qed.

Lemma setInputTarget_calls clouds cloud pts s :
  cloud ≠ target_ (registration s) →
  deref clouds cloud = Some pts →
  search_runs s pts →
  ∃ s' neighbors,
    setInputTarget Registration_setInputTarget clouds cloud s = Some s'
    ∧ searched s pts neighbors
    ∧ calls s' = calls s ++
        [SetTargetCloud (getVector3fMap <$> pts);
         target_search_call (neighbor_search_method_ s) (k_correspondences_ s) neighbors;
         CalculateTargetCovariances (regularization_method_ s);
         CreateTargetVoxelmap].
Proof.
  intros Hnew Hpts Hruns.
  destruct (search_runs_searched s pts Hruns) as [neighbors Hfind].
  unfold setInputTarget. rewrite decide_False by done. rewrite Hpts. simpl.
  unfold searched in *.
  destruct (neighbor_search_method_ s) eqn:Hm; simpl.
  - rewrite Hfind by done. simpl. eexists _, neighbors.
    split; [done|]. split; [done|].
    unfold calls. simpl. by rewrite <-!app_assoc.
  - eexists _, neighbors. split; [done|]. split; [done|].
    unfold calls. simpl. by rewrite <-!app_assoc.
Qed.

(** Whatever [setInputSource] is given, it never asks for the voxel map. *)
Lemma setInputSource_no_voxelmap clouds cloud s s' :
  setInputSource Registration_setInputSource clouds cloud s = Some s' →
  ∃ new, calls s' = calls s ++ new ∧ CreateTargetVoxelmap ∉ new.
Proof.
  unfold setInputSource. case_decide as Hsame.
  { intros [= <-]. exists []. split; [by rewrite app_nil_r|].
    apply not_elem_of_nil. }
  destruct (deref clouds cloud) as [pts|]; simpl; [|done].
  destruct (neighbor_search_method_ s); simpl.
  - destruct (find_neighbors_parallel_kdtree (k_correspondences_ s) pts)
      as [[neighbors kdtree]|]; simpl; [|done].
    intros [= <-]. eexists. unfold calls. simpl. rewrite <-!app_assoc.
    split; [done|]. simpl.
    rewrite !elem_of_cons, elem_of_nil. intros [?|[?|[?|[?|[]]]]]; discriminate.
  - intros [= <-]. eexists. unfold calls. simpl. rewrite <-!app_assoc.
    split; [done|]. simpl.
    rewrite !elem_of_cons, elem_of_nil. intros [?|[?|[?|[?|[]]]]]; discriminate.
Qed.

Variable FastGICP_computeTransformation : Matrix4 → LAdapter → LAdapter.

(** C5.  Assigning a new cloud as source uploads the extracted coordinates,
    then provides the neighbors for [k] correspondences by the configured
    search, then has the covariances computed (and reads them back);
    assigning a new target does the same on the target side and then has the
    voxel map rebuilt.  [setInputSource] never asks for the voxel map. *)
Theorem setInput_pipeline clouds cloud pts s :
  deref clouds cloud = Some pts →
  search_runs s pts →
  (cloud ≠ input_ (registration s) →
   ∃ s' neighbors,
     setInputSource Registration_setInputSource clouds cloud s = Some s'
     ∧ searched s pts neighbors
     ∧ calls s' = calls s ++
         [SetSourceCloud (getVector3fMap <$> pts);
          source_search_call (neighbor_search_method_ s) (k_correspondences_ s) neighbors;
          CalculateSourceCovariances (regularization_method_ s);
          GetSourceCovariances])
  ∧ (cloud ≠ target_ (registration s) →
     ∃ s' neighbors,
       setInputTarget Registration_setInputTarget clouds cloud s = Some s'
       ∧ searched s pts neighbors
       ∧ calls s' = calls s ++
           [SetTargetCloud (getVector3fMap <$> pts);
            target_search_call (neighbor_search_method_ s) (k_correspondences_ s) neighbors;
            CalculateTargetCovariances (regularization_method_ s);
            CreateTargetVoxelmap])
  ∧ (∀ s', setInputSource Registration_setInputSource clouds cloud s = Some s' →
       ∃ new, calls s' = calls s ++ new ∧ CreateTargetVoxelmap ∉ new).
Proof.
  intros Hpts Hruns. split; [|split].
  - intros Hnew. by apply setInputSource_calls.
  - intros Hnew. by apply setInputTarget_calls.
  - intros s'. apply setInputSource_no_voxelmap.
Qed.

(** C9.  [setNearesetNeighborSearchMethod] records the mode and nothing
    else: every other member, the engine and the calls it has received
    included, is as before.  The mode is used by the next assignment of
    another cloud, whose search call is the one of the recorded mode. *)
Theorem setNearesetNeighborSearchMethod_only_records method s :
  let s1 := setNearesetNeighborSearchMethod method s in
  neighbor_search_method_ s1 = method
  ∧ registration s1 = registration s
  ∧ rotation_epsilon_ s1 = rotation_epsilon_ s
  ∧ k_correspondences_ s1 = k_correspondences_ s
  ∧ regularization_method_ s1 = regularization_method_ s
  ∧ voxel_resolution_ s1 = voxel_resolution_ s
  ∧ source_kdtree s1 = source_kdtree s
  ∧ target_kdtree s1 = target_kdtree s
  ∧ vgicp_cuda s1 = vgicp_cuda s
  ∧ calls s1 = calls s
  ∧ ∀ clouds cloud pts,
      cloud ≠ input_ (registration s) →
      deref clouds cloud = Some pts →
      search_runs s1 pts →
      ∃ s2 neighbors,
        setInputSource Registration_setInputSource clouds cloud s1 = Some s2
        ∧ searched s1 pts neighbors
        ∧ calls s2 = calls s ++
            [SetSourceCloud (getVector3fMap <$> pts);
             source_search_call method (k_correspondences_ s) neighbors;
             CalculateSourceCovariances (regularization_method_ s);
             GetSourceCovariances].
Proof.
  intros s1. repeat (split; [reflexivity|]).
  intros clouds cloud pts Hnew Hpts Hruns.
  by apply (setInputSource_calls clouds cloud pts s1).
Qed.

(** C10.  [clearSource] resets the held source pointer and nothing else
    (likewise [clearTarget] and the target pointer): every other member of
    the adapter, the other pointer, the rest of the registration subobject,
    the configuration, the search mode, both kd-trees, the engine and the
    calls it has received, is as before.  So while assigning the held cloud
    again is skipped, assigning it after the clear runs the whole
    assignment. *)
Theorem clear_resets_pointer_only clouds (addr : positive) pts s :
  clouds !! addr = Some pts →
  search_runs s pts →
  (input_ (registration (clearSource s)) = None
   ∧ target_ (registration (clearSource s)) = target_ (registration s)
   ∧ reg_name_ (registration (clearSource s)) = reg_name_ (registration s)
   ∧ max_iterations_ (registration (clearSource s)) = max_iterations_ (registration s)
   ∧ transformation_epsilon_ (registration (clearSource s))
       = transformation_epsilon_ (registration s)
   ∧ source_cloud_updated_ (registration (clearSource s))
       = source_cloud_updated_ (registration s)
   ∧ target_cloud_updated_ (registration (clearSource s))
       = target_cloud_updated_ (registration s)
   ∧ rotation_epsilon_ (clearSource s) = rotation_epsilon_ s
   ∧ k_correspondences_ (clearSource s) = k_correspondences_ s
   ∧ regularization_method_ (clearSource s) = regularization_method_ s
   ∧ voxel_resolution_ (clearSource s) = voxel_resolution_ s
   ∧ source_kdtree (clearSource s) = source_kdtree s
   ∧ target_kdtree (clearSource s) = target_kdtree s
   ∧ neighbor_search_method_ (clearSource s) = neighbor_search_method_ s
   ∧ vgicp_cuda (clearSource s) = vgicp_cuda s
   ∧ calls (clearSource s) = calls s
   ∧ (input_ (registration s) = Some addr →
      setInputSource Registration_setInputSource clouds (Some addr) s = Some s
      ∧ ∃ s' neighbors,
          setInputSource Registration_setInputSource clouds (Some addr)
            (clearSource s) = Some s'
          ∧ searched s pts neighbors
          ∧ calls s' = calls s ++
              [SetSourceCloud (getVector3fMap <$> pts);
               source_search_call (neighbor_search_method_ s)
                 (k_correspondences_ s) neighbors;
               CalculateSourceCovariances (regularization_method_ s);
               GetSourceCovariances]))
  ∧ (target_ (registration (clearTarget s)) = None
     ∧ input_ (registration (clearTarget s)) = input_ (registration s)
     ∧ reg_name_ (registration (clearTarget s)) = reg_name_ (registration s)
     ∧ max_iterations_ (registration (clearTarget s)) = max_iterations_ (registration s)
     ∧ transformation_epsilon_ (registration (clearTarget s))
         = transformation_epsilon_ (registration s)
     ∧ source_cloud_updated_ (registration (clearTarget s))
         = source_cloud_updated_ (registration s)
     ∧ target_cloud_updated_ (registration (clearTarget s))
         = target_cloud_updated_ (registration s)
     ∧ rotation_epsilon_ (clearTarget s) = rotation_epsilon_ s
     ∧ k_correspondences_ (clearTarget s) = k_correspondences_ s
     ∧ regularization_method_ (clearTarget s) = regularization_method_ s
     ∧ voxel_resolution_ (clearTarget s) = voxel_resolution_ s
     ∧ source_kdtree (clearTarget s) = source_kdtree s
     ∧ target_kdtree (clearTarget s) = target_kdtree s
     ∧ neighbor_search_method_ (clearTarget s) = neighbor_search_method_ s
     ∧ vgicp_cuda (clearTarget s) = vgicp_cuda s
     ∧ calls (clearTarget s) = calls s
     ∧ (target_ (registration s) = Some addr →
        setInputTarget Registration_setInputTarget clouds (Some addr) s = Some s
        ∧ ∃ s' neighbors,
            setInputTarget Registration_setInputTarget clouds (Some addr)
              (clearTarget s) = Some s'
            ∧ searched s pts neighbors
            ∧ calls s' = calls s ++
                [SetTargetCloud (getVector3fMap <$> pts);
                 target_search_call (neighbor_search_method_ s)
                   (k_correspondences_ s) neighbors;
                 CalculateTargetCovariances (regularization_method_ s);
                 CreateTargetVoxelmap])).
Proof.
  intros Hpts Hruns. split.
  - repeat (split; [reflexivity|]). intros Hheld. split.
    + unfold setInputSource. by rewrite decide_True.
    + by apply (setInputSource_calls clouds (Some addr) pts (clearSource s)).
  - repeat (split; [reflexivity|]). intros Hheld. split.
    + unfold setInputTarget. by rewrite decide_True.
    + by apply (setInputTarget_calls clouds (Some addr) pts (clearTarget s)).
Qed.

(** C2, as the code has it.  The neighbors of a side are provided anew
    when a cloud other than the held one is assigned to it, by the search
    mode and with the [k] configured at that moment.  Changing the search
    mode issues no call to the engine, and assigning the held cloud again
    afterwards is skipped. *)
Theorem neighbor_set_recomputed_on_new_cloud clouds cloud pts s :
  deref clouds cloud = Some pts →
  search_runs s pts →
  (cloud ≠ input_ (registration s) →
   ∃ s' neighbors,
     setInputSource Registration_setInputSource clouds cloud s = Some s'
     ∧ searched s pts neighbors
     ∧ source_search_call (neighbor_search_method_ s) (k_correspondences_ s) neighbors
         ∈ drop (length (calls s)) (calls s'))
  ∧ (cloud ≠ target_ (registration s) →
     ∃ s' neighbors,
       setInputTarget Registration_setInputTarget clouds cloud s = Some s'
       ∧ searched s pts neighbors
       ∧ target_search_call (neighbor_search_method_ s) (k_correspondences_ s) neighbors
           ∈ drop (length (calls s)) (calls s'))
  ∧ ∀ method,
      let s1 := setNearesetNeighborSearchMethod method s in
      calls s1 = calls s
      ∧ setInputSource Registration_setInputSource clouds
          (input_ (registration s)) s1 = Some s1
      ∧ setInputTarget Registration_setInputTarget clouds
          (target_ (registration s)) s1 = Some s1.
Proof.
  intros Hpts Hruns. split; [|split].
  - intros Hnew.
    destruct (setInputSource_calls clouds cloud pts s)
      as (s' & neighbors & Hrun & Hfind & Hcalls); [done..|].
    exists s', neighbors. split; [done|]. split; [done|].
    rewrite Hcalls, drop_app_length. rewrite !elem_of_cons. auto.
  - intros Hnew.
    destruct (setInputTarget_calls clouds cloud pts s)
      as (s' & neighbors & Hrun & Hfind & Hcalls); [done..|].
    exists s', neighbors. split; [done|]. split; [done|].
    rewrite Hcalls, drop_app_length. rewrite !elem_of_cons. auto.
  - intros method s1. split; [done|]. split.
    + unfold setInputSource. by rewrite decide_True.
    + unfold setInputTarget. by rewrite decide_True.
Qed.

(** C8.  [computeTransformation] hands the four configuration values the
    adapter holds at that moment (maximum iterations, rotation epsilon,
    transformation epsilon, voxel resolution) to the engine, in this order,
    and only then enters the base-class optimization, with every member of
    the adapter as it was.  The constructor does the same with the initial
    values. *)
Theorem computeTransformation_propagates_configuration guess s :
  (∃ s0,
     computeTransformation FastGICP_computeTransformation guess s =
       FastGICP_computeTransformation guess s0
     ∧ calls s0 = calls s ++
         [SetMaxIterations (max_iterations_ (registration s));
          SetRotationEpsilon (rotation_epsilon_ s);
          SetTransformationEpsilon (transformation_epsilon_ (registration s));
          SetResolution (voxel_resolution_ s)]
     ∧ (vgicp_cuda s0).1 =
         set_resolution (voxel_resolution_ s)
           (set_transformation_epsilon (transformation_epsilon_ (registration s))
              (set_rotation_epsilon (rotation_epsilon_ s)
                 (set_max_iterations (max_iterations_ (registration s))
                    (vgicp_cuda s).1)))
     ∧ registration s0 = registration s
     ∧ rotation_epsilon_ s0 = rotation_epsilon_ s
     ∧ k_correspondences_ s0 = k_correspondences_ s
     ∧ regularization_method_ s0 = regularization_method_ s
     ∧ voxel_resolution_ s0 = voxel_resolution_ s
     ∧ source_kdtree s0 = source_kdtree s
     ∧ target_kdtree s0 = target_kdtree s
     ∧ neighbor_search_method_ s0 = neighbor_search_method_ s)
  ∧ ∀ reg rotation_epsilon k method resolution kd1 kd2,
      calls (FastVGICPCuda_new (Core := Logged RegularizationMethod Core)
               reg rotation_epsilon k method resolution kd1 kd2) =
        [SetMaxIterations (max_iterations_ reg);
         SetRotationEpsilon rotation_epsilon;
         SetTransformationEpsilon (transformation_epsilon_ reg);
         SetResolution resolution].
Proof.
  split.
  - eexists. split; [reflexivity|].
    split; [unfold calls; simpl; by rewrite <-!app_assoc|].
    repeat (split; [reflexivity|]). reflexivity.
  - reflexivity.
Qed.
End CallProperties.

(** ** What the methods leave alone *)

Section FrameProperties.
Context `{KdTreeSearch} {RegularizationMethod Core : Type}.
Context `{!VGICPCore RegularizationMethod Core}.

Variable Registration_setInputSource :
  CloudStore → CloudPtr → Registration → Registration.
Variable Registration_setInputTarget :
  CloudStore → CloudPtr → Registration → Registration.

Implicit Types (s : FastVGICPCuda RegularizationMethod Core).
Implicit Types (l : FastVGICPCuda RegularizationMethod
                      (Logged RegularizationMethod Core)).

(** C3.  Assigning the cloud pointer already held as source (as target)
    returns at once: the adapter is exactly as before, whatever the engine,
    so no coordinates were extracted, no search was run and the engine
    received no call.  The pointers decide, not the points: another pointer
    to a cloud with the very same points is assigned in full. *)
Theorem setInput_same_instance_is_noop (clouds : CloudStore) s :
  setInputSource Registration_setInputSource clouds (input_ (registration s)) s = Some s
  ∧ setInputTarget Registration_setInputTarget clouds (target_ (registration s)) s = Some s
  ∧ ∀ l,
      (∃ l', setInputSource Registration_setInputSource clouds
               (input_ (registration l)) l = Some l'
         ∧ calls l' = calls l)
      ∧ (∃ l', setInputTarget Registration_setInputTarget clouds
                 (target_ (registration l)) l = Some l'
           ∧ calls l' = calls l)
      ∧ ∀ cloud pts,
          cloud ≠ input_ (registration l) →
          deref clouds cloud = Some pts →
          deref clouds (input_ (registration l)) = Some pts →
          search_runs l pts →
          ∃ l', setInputSource Registration_setInputSource clouds cloud l = Some l'
            ∧ length (calls l') = (length (calls l) + 4)%nat.
Proof.
  split; [|split].
  - unfold setInputSource. by rewrite decide_True.
  - unfold setInputTarget. by rewrite decide_True.
  - intros l. split; [|split].
    + exists l. unfold setInputSource. by rewrite decide_True.
    + exists l. unfold setInputTarget. by rewrite decide_True.
    + intros cloud pts Hnew Hpts _ Hruns.
      destruct (setInputSource_calls Registration_setInputSource clouds cloud pts l)
        as (l' & neighbors & Hrun & _ & Hcalls); [done..|].
      exists l'. split; [done|]. by rewrite Hcalls, length_app.
Qed.

Lemma with_registration_swap_swap s :
  with_registration (λ r, set_target_ (input_ r) (set_input_ (target_ r) r))
    (with_registration (λ r, set_target_ (input_ r) (set_input_ (target_ r) r)) s)
  = s.
Proof. by destruct s as [[] ? ? ? ? ? ? ? ?]. Qed.

(** C4.  A single swap exchanges the two held pointers and asks the engine
    for its swap, and for nothing else: no search, covariance or voxel-map
    call, and no other member changes.  Provided the engine's own swap
    exchanges its two sides symmetrically (swapping twice restores it),
    swapping source and target twice gives back the adapter it started from,
    so correspondences, weighting and error for any transform come out as
    before the swaps. *)
Theorem swapSourceAndTarget_twice s :
  (input_ (registration (swapSourceAndTarget s)) = target_ (registration s)
   ∧ target_ (registration (swapSourceAndTarget s)) = input_ (registration s)
   ∧ vgicp_cuda (swapSourceAndTarget s) = swap_source_and_target (vgicp_cuda s)
   ∧ k_correspondences_ (swapSourceAndTarget s) = k_correspondences_ s
   ∧ regularization_method_ (swapSourceAndTarget s) = regularization_method_ s
   ∧ neighbor_search_method_ (swapSourceAndTarget s) = neighbor_search_method_ s
   ∧ ∀ l, calls (swapSourceAndTarget l) = calls l ++ [SwapSourceAndTarget])
  ∧ ((∀ c : Core, swap_source_and_target (swap_source_and_target c) = c) →
     swapSourceAndTarget (swapSourceAndTarget s) = s
     ∧ ∀ trans,
         update_correspondences trans (swapSourceAndTarget (swapSourceAndTarget s))
           = update_correspondences trans s
         ∧ update_mahalanobis trans (swapSourceAndTarget (swapSourceAndTarget s))
           = update_mahalanobis trans s
         ∧ compute_error trans (swapSourceAndTarget (swapSourceAndTarget s))
           = compute_error trans s).
Proof.
  split.
  - repeat (split; [reflexivity|]). reflexivity.
  - intros Hswap.
    assert (swapSourceAndTarget (swapSourceAndTarget s) = s) as Htwice.
    { rewrite <-(with_registration_swap_swap s) at 2.
      destruct s as [[] ? ? ? ? ? ? ? core]. unfold swapSourceAndTarget, with_core,
        with_registration. simpl. by rewrite Hswap. }
    split; [done|]. intros trans. by rewrite Htwice.
Qed.

(** C6.  [compute_error] returns what the engine computes for the transform
    (the error, [H] and [b]) and changes no member of the adapter: pointers,
    configuration and kd-trees are as before, and the engine is the one its
    own error computation leaves.  Provided that computation only reads the
    engine, the adapter is exactly as before, hence so are correspondences,
    covariances and voxel map, and asking again gives the same answer. *)
Theorem compute_error_no_side_effects trans s :
  ((compute_error trans s).1 = (core_compute_error trans (vgicp_cuda s)).1
   ∧ vgicp_cuda (compute_error trans s).2 = (core_compute_error trans (vgicp_cuda s)).2
   ∧ registration (compute_error trans s).2 = registration s
   ∧ rotation_epsilon_ (compute_error trans s).2 = rotation_epsilon_ s
   ∧ k_correspondences_ (compute_error trans s).2 = k_correspondences_ s
   ∧ regularization_method_ (compute_error trans s).2 = regularization_method_ s
   ∧ voxel_resolution_ (compute_error trans s).2 = voxel_resolution_ s
   ∧ source_kdtree (compute_error trans s).2 = source_kdtree s
   ∧ target_kdtree (compute_error trans s).2 = target_kdtree s
   ∧ neighbor_search_method_ (compute_error trans s).2 = neighbor_search_method_ s)
  ∧ ((∀ c : Core, (core_compute_error trans c).2 = c) →
     (compute_error trans s).2 = s
     ∧ compute_error trans (compute_error trans s).2 = compute_error trans s).
Proof.
  split.
  - unfold compute_error.
    destruct (core_compute_error trans (vgicp_cuda s)) as [result core].
    repeat (split; [reflexivity|]). reflexivity.
  - intros Hreads.
    assert ((compute_error trans s).2 = s) as Hsame.
    { unfold compute_error. specialize (Hreads (vgicp_cuda s)).
      destruct (core_compute_error trans (vgicp_cuda s)) as [result core].
      simpl in *. subst core. by destruct s. }
    split; [done|]. by rewrite Hsame.
Qed.
End FrameProperties.

(** * Further properties of the code *)

(** ** The contents of the neighbor vector *)

Section SlotProperties.
Context `{KdTreeClips}.
Implicit Types (cloud : list PointT) (sched : list nat).

(** Started from the zeroed vector, slot [i] ends up as the indices found
    for point [i] followed by zeros if iteration [i] ran, and all zeros if it
    did not. *)
Lemma kdtree_loop_slot sched k cloud i pt :
  0 ≤ k → cloud !! i = Some pt →
  take (Z.to_nat k)
    (drop (i * Z.to_nat k)
       (kdtree_loop sched k cloud (replicate (length cloud * Z.to_nat k) 0)))
  = if decide (i ∈ sched)
    then nearestKSearch cloud pt k
           ++ replicate (Z.to_nat k - length (nearestKSearch cloud pt k)) 0
    else replicate (Z.to_nat k) 0.
Proof.
  intros Hk Hpt.
  pose proof (nearestKSearch_length cloud pt k Hk) as Hlen.
  set (found := nearestKSearch cloud pt k) in *.
  set (K := Z.to_nat k) in *. set (n := length cloud) in *.
  assert (i < n)%nat as Hi by (by eapply lookup_lt_Some).
  apply list_eq. intros j.
  destruct (decide (j < K)%nat) as [Hj|Hj].
  - rewrite lookup_take_lt, lookup_drop by done.
    assert (i * K + j < n * K)%nat as Hpos by nia.
    rewrite kdtree_loop_lookup by (by rewrite ?length_replicate).
    unfold slot_value. fold K.
    assert (((i * K + j) `div` K)%nat = i) as Hq.
    { symmetry. apply (Nat.div_unique _ K i j); lia. }
    assert (((i * K + j) `mod` K)%nat = j) as Hr.
    { symmetry. apply (Nat.mod_unique _ K i j); lia. }
    rewrite Hq, Hr, Hpt, lookup_replicate_2 by done. simpl. fold found.
    destruct (decide (i ∈ sched)) as [Hin|Hnin].
    + destruct (decide (j < length found)%nat) as [Hf|Hf].
      * rewrite lookup_app_l by done.
        destruct (lookup_lt_is_Some_2 found j Hf) as [v Hv]. by rewrite Hv.
      * rewrite lookup_app_r by lia.
        rewrite (lookup_ge_None_2 found) by lia. simpl.
        symmetry. apply lookup_replicate_2. lia.
    + symmetry. by apply lookup_replicate_2.
  - rewrite lookup_take_ge by lia. symmetry. apply lookup_ge_None_2.
    destruct (decide (i ∈ sched)).
    + rewrite length_app, length_replicate. lia.
    + rewrite length_replicate. lia.
Qed.

(** X1.  The returned vector, slot by slot: slot [i] (the [k] positions from
    [i * k] on) holds the indices the kd-tree returned for point [i], followed
    by zeros when fewer than [k] were returned; the filler is the value the
    vector was constructed with.  Under any schedule, complete or not, a slot
    is either this or still all zeros, according to whether its own iteration
    ran. *)
Theorem find_neighbors_slot_contents sched k cloud :
  within_int k (length cloud) →
  (∃ neighbors,
     find_neighbors_parallel_kdtree k cloud = Some (neighbors, cloud)
     ∧ ∀ i pt, cloud !! i = Some pt →
         take (Z.to_nat k) (drop (i * Z.to_nat k) neighbors)
         = nearestKSearch cloud pt k
             ++ replicate (Z.to_nat k - length (nearestKSearch cloud pt k)) 0)
  ∧ ∃ partial,
      find_neighbors_parallel_kdtree_sched sched k cloud = Some (partial, cloud)
      ∧ ∀ i pt, cloud !! i = Some pt →
          take (Z.to_nat k) (drop (i * Z.to_nat k) partial)
          = if decide (i ∈ sched)
            then nearestKSearch cloud pt k
                   ++ replicate (Z.to_nat k - length (nearestKSearch cloud pt k)) 0
            else replicate (Z.to_nat k) 0.
Proof.
  intros Hrange. pose proof Hrange as (Hk & _ & _).
  unfold find_neighbors_parallel_kdtree, find_neighbors_parallel_kdtree_sched.
  rewrite neighbors_alloc_Some by done. simpl. split.
  - eexists. split; [done|]. intros i pt Hpt.
    rewrite (kdtree_loop_slot _ k cloud i pt) by done.
    rewrite decide_True; [done|].
    apply elem_of_seq. apply lookup_lt_Some in Hpt. lia.
  - eexists. split; [done|]. intros i pt Hpt.
    by apply kdtree_loop_slot.
Qed.

(** X2.  When the kd-tree only returns indices of points it indexes, every
    entry of the returned vector is the index of a point of the cloud: the
    zeros that fill short slots are valid indices too, since a vector with
    entries comes from a cloud with points. *)
Theorem find_neighbors_indices_in_range k cloud :
  (∀ tree pt k' (x : Z),
     x ∈ nearestKSearch tree pt k' → 0 ≤ x < Z.of_nat (length tree)) →
  within_int k (length cloud) →
  ∃ neighbors,
    find_neighbors_parallel_kdtree k cloud = Some (neighbors, cloud)
    ∧ ∀ x, x ∈ neighbors → 0 ≤ x < Z.of_nat (length cloud).
Proof.
  intros Hvalid Hrange. pose proof Hrange as (Hk & _ & _).
  unfold find_neighbors_parallel_kdtree, find_neighbors_parallel_kdtree_sched.
  rewrite neighbors_alloc_Some by done. simpl.
  eexists. split; [done|]. intros x [p Hp]%list_elem_of_lookup.
  assert (p < length cloud * Z.to_nat k)%nat as Hlt.
  { apply lookup_lt_Some in Hp.
    by rewrite kdtree_loop_length, length_replicate in Hp. }
  rewrite kdtree_loop_lookup in Hp by (by rewrite ?length_replicate).
  rewrite lookup_replicate_2 in Hp by done.
  rewrite decide_True in Hp.
  2:{ apply elem_of_seq. split; [lia|]. simpl.
      apply Nat.Div0.div_lt_upper_bound; lia. }
  rename Hp into Hx. unfold slot_value in Hx.
  destruct (cloud !! (p `div` Z.to_nat k)%nat) as [pt|] eqn:Hpt; simpl in Hx.
  - destruct (nearestKSearch cloud pt k !! (p `mod` Z.to_nat k)%nat) as [v|] eqn:Hv;
      simpl in Hx; injection Hx as <-.
    + apply (Hvalid cloud pt k). by eapply list_elem_of_lookup_2.
    + nia.
  - injection Hx as <-. nia.
Qed.

(** X13.  With [k = 0], and a kd-tree that returns at most [k] indices, every
    search returns no index, no iteration changes the vector, and the search
    as a whole returns the empty vector, for every cloud whose size fits
    [int]. *)
Theorem find_neighbors_zero_k cloud :
  Z.of_nat (length cloud) ≤ INT_MAX →
  find_neighbors_parallel_kdtree 0 cloud = Some ([], cloud)
  ∧ (∀ tree pt, nearestKSearch tree pt 0 = [])
  ∧ ∀ neighbors i, kdtree_iteration 0 cloud neighbors i = neighbors.
Proof.
  intros Hsize.
  assert (∀ tree pt, nearestKSearch tree pt 0 = []) as Hnone.
  { intros tree pt. apply nil_length_inv.
    by rewrite nearestKSearch_length. }
  split; [|split; [done|]].
  - unfold find_neighbors_parallel_kdtree, find_neighbors_parallel_kdtree_sched.
    rewrite neighbors_alloc_Some by (unfold within_int, INT_MAX in *; lia).
    simpl. do 2 f_equal. apply nil_length_inv.
    rewrite kdtree_loop_length, length_replicate. lia.
  - intros neighbors i. unfold kdtree_iteration.
    destruct (cloud !! i) as [pt|]; [|done]. by rewrite Hnone.
Qed.

(** A negative [k] on a cloud with points gives no vector: the requested
    length, formed in [size_t], cannot be allocated. *)
Lemma find_neighbors_negative_k k cloud :
  k < 0 → cloud ≠ [] → find_neighbors_parallel_kdtree k cloud = None.
Proof.
  intros Hk Hne.
  unfold find_neighbors_parallel_kdtree, find_neighbors_parallel_kdtree_sched,
    neighbors_alloc.
  rewrite decide_True; [done|]. split; [done|].
  destruct cloud; [done|]. simpl. lia.
Qed.
End SlotProperties.

(** ** Assignments at the edges *)

Section EdgeProperties.
Context `{KdTreeSearch} {RegularizationMethod Core : Type}.
Context `{!VGICPCore RegularizationMethod Core}.

Variable Registration_setInputSource :
  CloudStore → CloudPtr → Registration → Registration.
Variable Registration_setInputTarget :
  CloudStore → CloudPtr → Registration → Registration.

Implicit Types (s : FastVGICPCuda RegularizationMethod Core).
Implicit Types (l : FastVGICPCuda RegularizationMethod
                      (Logged RegularizationMethod Core)).
Implicit Types (cloud : CloudPtr) (clouds : CloudStore).

Lemma find_neighbors_empty k :
  0 ≤ k → find_neighbors_parallel_kdtree k [] = Some ([], []).
Proof.
  intros Hk.
  unfold find_neighbors_parallel_kdtree, find_neighbors_parallel_kdtree_sched.
  rewrite neighbors_alloc_Some; [done|]. unfold within_int, INT_MAX. simpl. lia.
Qed.

(** X3.  With a negative [k] and a cloud with points, the host search has
    no result and an assignment under the kd-tree mode ends abnormally;
    under the brute-force mode the same
    assignment goes through and hands the negative [k] to the engine. *)
Theorem negative_k_assignment clouds cloud pts l :
  k_correspondences_ l < 0 →
  pts ≠ [] →
  deref clouds cloud = Some pts →
  cloud ≠ input_ (registration l) →
  find_neighbors_parallel_kdtree (k_correspondences_ l) pts = None
  ∧ (neighbor_search_method_ l = CPU_PARALLEL_KDTREE →
     setInputSource Registration_setInputSource clouds cloud l = None)
  ∧ (neighbor_search_method_ l = GPU_BRUTEFORCE →
     ∃ l', setInputSource Registration_setInputSource clouds cloud l = Some l'
       ∧ calls l' = calls l ++
           [SetSourceCloud (getVector3fMap <$> pts);
            FindSourceNeighbors (k_correspondences_ l);
            CalculateSourceCovariances (regularization_method_ l);
            GetSourceCovariances]).
Proof.
  intros Hk Hne Hpts Hnew.
  pose proof (find_neighbors_negative_k _ pts Hk Hne) as Hnone.
  split; [done|]. split.
  - intros Hm. unfold setInputSource. rewrite decide_False by done.
    rewrite Hpts. simpl. rewrite Hm. simpl. by rewrite Hnone.
  - intros Hm.
    destruct (setInputSource_calls Registration_setInputSource clouds cloud pts l)
      as (l' & neighbors & Hrun & _ & Hcalls); [done|done| |].
    { intros Hcpu. congruence. }
    exists l'. split; [done|]. by rewrite Hcalls, Hm.
Qed.

(** X4.  An empty cloud is assigned like any other: nothing in the adapter
    refuses it.  An empty point set and, under the kd-tree mode, an empty
    neighbor vector are uploaded, and the covariances (for the target also
    the voxel map) are requested. *)
Theorem empty_cloud_assignment clouds cloud l :
  deref clouds cloud = Some [] →
  (neighbor_search_method_ l = CPU_PARALLEL_KDTREE → 0 ≤ k_correspondences_ l) →
  (cloud ≠ input_ (registration l) →
   ∃ l', setInputSource Registration_setInputSource clouds cloud l = Some l'
     ∧ calls l' = calls l ++
         [SetSourceCloud [];
          source_search_call (neighbor_search_method_ l) (k_correspondences_ l) [];
          CalculateSourceCovariances (regularization_method_ l);
          GetSourceCovariances])
  ∧ (cloud ≠ target_ (registration l) →
     ∃ l', setInputTarget Registration_setInputTarget clouds cloud l = Some l'
       ∧ calls l' = calls l ++
           [SetTargetCloud [];
            target_search_call (neighbor_search_method_ l) (k_correspondences_ l) [];
            CalculateTargetCovariances (regularization_method_ l);
            CreateTargetVoxelmap]).
Proof.
  intros Hpts Hk.
  assert (search_runs l []) as Hruns.
  { intros Hm. specialize (Hk Hm). unfold within_int, INT_MAX. simpl. lia. }
  split; intros Hnew.
  - destruct (setInputSource_calls Registration_setInputSource clouds cloud [] l)
      as (l' & neighbors & Hrun & Hfind & Hcalls); [done..|].
    exists l'. split; [done|]. rewrite Hcalls. unfold searched in Hfind.
    destruct (neighbor_search_method_ l); [|done].
    rewrite find_neighbors_empty in Hfind by auto.
    specialize (Hfind eq_refl). by injection Hfind as <-.
  - destruct (setInputTarget_calls Registration_setInputTarget clouds cloud [] l)
      as (l' & neighbors & Hrun & Hfind & Hcalls); [done..|].
    exists l'. split; [done|]. rewrite Hcalls. unfold searched in Hfind.
    destruct (neighbor_search_method_ l); [|done].
    rewrite find_neighbors_empty in Hfind by auto.
    specialize (Hfind eq_refl). by injection Hfind as <-.
Qed.

(** X5.  A null cloud pointer is accepted only while the adapter holds none,
    and then nothing happens; in particular right after [clearSource] or
    [clearTarget].  While a cloud is held, assigning null passes the
    comparison and dereferences the null pointer: no result. *)
Theorem null_cloud_assignment clouds s :
  (input_ (registration s) = None →
   setInputSource Registration_setInputSource clouds None s = Some s)
  ∧ (input_ (registration s) ≠ None →
     setInputSource Registration_setInputSource clouds None s = None)
  ∧ (target_ (registration s) = None →
     setInputTarget Registration_setInputTarget clouds None s = Some s)
  ∧ (target_ (registration s) ≠ None →
     setInputTarget Registration_setInputTarget clouds None s = None)
  ∧ setInputSource Registration_setInputSource clouds None (clearSource s)
      = Some (clearSource s)
  ∧ setInputTarget Registration_setInputTarget clouds None (clearTarget s)
      = Some (clearTarget s).
Proof.
  repeat split.
  - intros Hnull. unfold setInputSource. by rewrite decide_True.
  - intros Hheld. unfold setInputSource. by rewrite decide_False.
  - intros Hnull. unfold setInputTarget. by rewrite decide_True.
  - intros Hheld. unfold setInputTarget. by rewrite decide_False.
Qed.
End EdgeProperties.

(** ** What an assignment changes, and how the methods compose *)

Section CompositionProperties.
Context `{KdTreeSearch} {RegularizationMethod Core : Type}.
Context `{!VGICPCore RegularizationMethod Core}.

Variable Registration_setInputSource :
  CloudStore → CloudPtr → Registration → Registration.
Variable Registration_setInputTarget :
  CloudStore → CloudPtr → Registration → Registration.

Implicit Types (s : FastVGICPCuda RegularizationMethod Core).
Implicit Types (l : FastVGICPCuda RegularizationMethod
                      (Logged RegularizationMethod Core)).
Implicit Types (cloud : CloudPtr) (clouds : CloudStore).

(** The kd-tree handed back by the search indexes the searched cloud. *)
Lemma find_neighbors_kdtree k (pts : list PointT) neighbors kdtree :
  find_neighbors_parallel_kdtree k pts = Some (neighbors, kdtree) → kdtree = pts.
Proof.
  unfold find_neighbors_parallel_kdtree, find_neighbors_parallel_kdtree_sched.
  destruct (neighbors_alloc k (length pts)); simpl; congruence.
Qed.

(** The members after an assignment that was not skipped. *)
Lemma setInputSource_members clouds cloud s s' :
  setInputSource Registration_setInputSource clouds cloud s = Some s' →
  cloud ≠ input_ (registration s) →
  registration s' = Registration_setInputSource clouds cloud (registration s)
  ∧ rotation_epsilon_ s' = rotation_epsilon_ s
  ∧ k_correspondences_ s' = k_correspondences_ s
  ∧ regularization_method_ s' = regularization_method_ s
  ∧ voxel_resolution_ s' = voxel_resolution_ s
  ∧ neighbor_search_method_ s' = neighbor_search_method_ s
  ∧ target_kdtree s' = target_kdtree s
  ∧ (neighbor_search_method_ s = CPU_PARALLEL_KDTREE →
     deref clouds cloud = Some (source_kdtree s'))
  ∧ (neighbor_search_method_ s = GPU_BRUTEFORCE →
     source_kdtree s' = source_kdtree s).
Proof.
  intros Hrun Hnew. unfold setInputSource in Hrun.
  rewrite decide_False in Hrun by done.
  destruct (deref clouds cloud) as [pts|]; simpl in Hrun; [|done].
  destruct (neighbor_search_method_ s) eqn:Hm; simpl in Hrun.
  - destruct (find_neighbors_parallel_kdtree (k_correspondences_ s) pts)
      as [[neighbors kdtree]|] eqn:Hfind; simpl in Hrun; [|done].
    apply find_neighbors_kdtree in Hfind as ->.
    destruct (get_source_covariances _) as [covs core].
    injection Hrun as <-. by repeat split.
  - destruct (get_source_covariances _) as [covs core].
    injection Hrun as <-. by repeat split.
Qed.

Lemma setInputTarget_members clouds cloud s s' :
  setInputTarget Registration_setInputTarget clouds cloud s = Some s' →
  cloud ≠ target_ (registration s) →
  registration s' = Registration_setInputTarget clouds cloud (registration s)
  ∧ rotation_epsilon_ s' = rotation_epsilon_ s
  ∧ k_correspondences_ s' = k_correspondences_ s
  ∧ regularization_method_ s' = regularization_method_ s
  ∧ voxel_resolution_ s' = voxel_resolution_ s
  ∧ neighbor_search_method_ s' = neighbor_search_method_ s
  ∧ source_kdtree s' = source_kdtree s
  ∧ (neighbor_search_method_ s = CPU_PARALLEL_KDTREE →
     deref clouds cloud = Some (target_kdtree s'))
  ∧ (neighbor_search_method_ s = GPU_BRUTEFORCE →
     target_kdtree s' = target_kdtree s).
Proof.
  intros Hrun Hnew. unfold setInputTarget in Hrun.
  rewrite decide_False in Hrun by done.
  destruct (deref clouds cloud) as [pts|]; simpl in Hrun; [|done].
  destruct (neighbor_search_method_ s) eqn:Hm; simpl in Hrun.
  - destruct (find_neighbors_parallel_kdtree (k_correspondences_ s) pts)
      as [[neighbors kdtree]|] eqn:Hfind; simpl in Hrun; [|done].
    apply find_neighbors_kdtree in Hfind as ->.
    injection Hrun as <-. by repeat split.
  - injection Hrun as <-. by repeat split.
Qed.

(** X6.  An assignment that is not skipped changes, besides the engine, only
    what the base-class setter changes in the registration subobject and the
    kd-tree of its own side: configuration, search mode and the kd-tree of
    the other side stay.  Under the kd-tree mode the kd-tree of the side then
    indexes the assigned cloud; under the brute-force mode it is not touched
    and keeps indexing whatever it indexed before. *)
Theorem setInput_members clouds cloud s s' :
  (setInputSource Registration_setInputSource clouds cloud s = Some s' →
   cloud ≠ input_ (registration s) →
   registration s' = Registration_setInputSource clouds cloud (registration s)
   ∧ rotation_epsilon_ s' = rotation_epsilon_ s
   ∧ k_correspondences_ s' = k_correspondences_ s
   ∧ regularization_method_ s' = regularization_method_ s
   ∧ voxel_resolution_ s' = voxel_resolution_ s
   ∧ neighbor_search_method_ s' = neighbor_search_method_ s
   ∧ target_kdtree s' = target_kdtree s
   ∧ (neighbor_search_method_ s = CPU_PARALLEL_KDTREE →
      deref clouds cloud = Some (source_kdtree s'))
   ∧ (neighbor_search_method_ s = GPU_BRUTEFORCE →
      source_kdtree s' = source_kdtree s))
  ∧ (setInputTarget Registration_setInputTarget clouds cloud s = Some s' →
     cloud ≠ target_ (registration s) →
     registration s' = Registration_setInputTarget clouds cloud (registration s)
     ∧ rotation_epsilon_ s' = rotation_epsilon_ s
     ∧ k_correspondences_ s' = k_correspondences_ s
     ∧ regularization_method_ s' = regularization_method_ s
     ∧ voxel_resolution_ s' = voxel_resolution_ s
     ∧ neighbor_search_method_ s' = neighbor_search_method_ s
     ∧ source_kdtree s' = source_kdtree s
     ∧ (neighbor_search_method_ s = CPU_PARALLEL_KDTREE →
        deref clouds cloud = Some (target_kdtree s'))
     ∧ (neighbor_search_method_ s = GPU_BRUTEFORCE →
        target_kdtree s' = target_kdtree s)).
Proof.
  split.
  - apply setInputSource_members.
  - apply setInputTarget_members.
Qed.

(** X7.  Assigning the same cloud pointer twice in a row does the work once:
    provided the base-class setter stored the pointer at the first
    assignment, the second one is skipped and returns the adapter
    unchanged. *)
Theorem setInput_twice clouds cloud s s' :
  (input_ (Registration_setInputSource clouds cloud (registration s)) = cloud →
   setInputSource Registration_setInputSource clouds cloud s = Some s' →
   setInputSource Registration_setInputSource clouds cloud s' = Some s')
  ∧ (target_ (Registration_setInputTarget clouds cloud (registration s)) = cloud →
     setInputTarget Registration_setInputTarget clouds cloud s = Some s' →
     setInputTarget Registration_setInputTarget clouds cloud s' = Some s').
Proof.
  split; intros Hstored Hrun.
  - destruct (decide (cloud = input_ (registration s))) as [Hsame|Hnew].
    + unfold setInputSource in Hrun. rewrite decide_True in Hrun by done.
      injection Hrun as <-. unfold setInputSource. by rewrite decide_True.
    + destruct (setInputSource_members clouds cloud s s' Hrun Hnew) as (Hreg & _).
      unfold setInputSource. rewrite decide_True; [done|]. by rewrite Hreg.
  - destruct (decide (cloud = target_ (registration s))) as [Hsame|Hnew].
    + unfold setInputTarget in Hrun. rewrite decide_True in Hrun by done.
      injection Hrun as <-. unfold setInputTarget. by rewrite decide_True.
    + destruct (setInputTarget_members clouds cloud s s' Hrun Hnew) as (Hreg & _).
      unfold setInputTarget. rewrite decide_True; [done|]. by rewrite Hreg.
Qed.

(** X8.  After [swapSourceAndTarget], assigning the two clouds in their
    exchanged roles is skipped: the former target as source, the former
    source as target.  Assigning the former source as source again is not:
    when the two pointers differ it runs in full, on top of the swap. *)
Theorem swap_then_assign clouds l :
  setInputSource Registration_setInputSource clouds (target_ (registration l))
    (swapSourceAndTarget l) = Some (swapSourceAndTarget l)
  ∧ setInputTarget Registration_setInputTarget clouds (input_ (registration l))
      (swapSourceAndTarget l) = Some (swapSourceAndTarget l)
  ∧ ∀ pts,
      input_ (registration l) ≠ target_ (registration l) →
      deref clouds (input_ (registration l)) = Some pts →
      search_runs l pts →
      ∃ l' neighbors,
        setInputSource Registration_setInputSource clouds (input_ (registration l))
          (swapSourceAndTarget l) = Some l'
        ∧ searched l pts neighbors
        ∧ calls l' = calls l ++
            [SwapSourceAndTarget;
             SetSourceCloud (getVector3fMap <$> pts);
             source_search_call (neighbor_search_method_ l) (k_correspondences_ l) neighbors;
             CalculateSourceCovariances (regularization_method_ l);
             GetSourceCovariances].
Proof.
  split; [|split].
  - unfold setInputSource. by rewrite decide_True.
  - unfold setInputTarget. by rewrite decide_True.
  - intros pts Hdiff Hpts Hruns.
    destruct (setInputSource_calls Registration_setInputSource clouds
                (input_ (registration l)) pts (swapSourceAndTarget l))
      as (l' & neighbors & Hrun & Hfind & Hcalls); [done..|].
    exists l', neighbors. split; [done|]. split; [done|].
    rewrite Hcalls. unfold calls. simpl. by rewrite <-app_assoc.
Qed.

(** X9.  Clearing and swapping commute up to the exchange of roles:
    clearing the source and then swapping is swapping and then clearing the
    target, and the other way round.  The two clears commute, and clearing
    twice is clearing once. *)
Theorem swap_clear_exchange s :
  swapSourceAndTarget (clearSource s) = clearTarget (swapSourceAndTarget s)
  ∧ swapSourceAndTarget (clearTarget s) = clearSource (swapSourceAndTarget s)
  ∧ clearSource (clearTarget s) = clearTarget (clearSource s)
  ∧ clearSource (clearSource s) = clearSource s
  ∧ clearTarget (clearTarget s) = clearTarget s.
Proof. by destruct s as [[] ? ? ? ? ? ? ? ?]. Qed.

(** X10.  Whatever sequence of its three callbacks the optimizer invokes,
    the engine receives exactly one call per invocation, in the same order,
    and no member of the adapter other than the engine changes: pointers,
    configuration, search mode and kd-trees are as they were when the
    optimization began. *)
Theorem callbacks_only_reach_the_engine (cbs : list Callback) l :
  calls (foldl invoke l cbs) = calls l ++ (callback_call <$> cbs)
  ∧ registration (foldl invoke l cbs) = registration l
  ∧ rotation_epsilon_ (foldl invoke l cbs) = rotation_epsilon_ l
  ∧ k_correspondences_ (foldl invoke l cbs) = k_correspondences_ l
  ∧ regularization_method_ (foldl invoke l cbs) = regularization_method_ l
  ∧ voxel_resolution_ (foldl invoke l cbs) = voxel_resolution_ l
  ∧ neighbor_search_method_ (foldl invoke l cbs) = neighbor_search_method_ l
  ∧ source_kdtree (foldl invoke l cbs) = source_kdtree l
  ∧ target_kdtree (foldl invoke l cbs) = target_kdtree l.
Proof.
  revert l. induction cbs as [|cb cbs IH]; intros l.
  { simpl. by rewrite app_nil_r. }
  destruct (IH (invoke l cb)) as (Hc & Hr & Hre & Hk & Hm & Hv & Hn & Hs & Ht).
  cbn [foldl fmap list_fmap].
  rewrite Hc, Hr, Hre, Hk, Hm, Hv, Hn, Hs, Ht.
  destruct cb; unfold calls; simpl; by rewrite <-app_assoc.
Qed.

(** X11.  A newly constructed adapter searches with the kd-tree on the
    host: after the four configuration calls of the constructor, its first
    assignment uploads the neighbors the host search found. *)
Theorem new_adapter_searches_on_host clouds cloud pts
    reg rotation_epsilon k method resolution kd1 kd2 :
  cloud ≠ input_ reg →
  deref clouds cloud = Some pts →
  within_int k (length pts) →
  ∃ l' neighbors,
    setInputSource Registration_setInputSource clouds cloud
      (FastVGICPCuda_new (Core := Logged RegularizationMethod Core)
         reg rotation_epsilon k method resolution kd1 kd2) = Some l'
    ∧ find_neighbors_parallel_kdtree k pts = Some (neighbors, pts)
    ∧ calls l' =
        [SetMaxIterations (max_iterations_ reg);
         SetRotationEpsilon rotation_epsilon;
         SetTransformationEpsilon (transformation_epsilon_ reg);
         SetResolution resolution;
         SetSourceCloud (getVector3fMap <$> pts);
         SetSourceNeighbors k neighbors;
         CalculateSourceCovariances method;
         GetSourceCovariances].
Proof.
  intros Hnew Hpts Hrange.
  destruct (setInputSource_calls Registration_setInputSource clouds cloud pts
              (FastVGICPCuda_new (Core := Logged RegularizationMethod Core)
                 reg rotation_epsilon k method resolution kd1 kd2))
    as (l' & neighbors & Hrun & Hfind & Hcalls); [done|done|by intros _|].
  exists l', neighbors. split; [done|]. split; [by apply Hfind|].
  by rewrite Hcalls.
Qed.

(** X12.  Each assignment stays on its side of the engine: every call
    issued by [setInputSource] concerns the source, every call issued by
    [setInputTarget] the target.  Neither touches the other side, the
    configuration, the swap or the optimizer's operations. *)
Theorem assignment_calls_stay_on_their_side clouds cloud l :
  (∀ l', setInputSource Registration_setInputSource clouds cloud l = Some l' →
     ∃ new, calls l' = calls l ++ new ∧ Forall (λ c, source_call c = true) new)
  ∧ (∀ l', setInputTarget Registration_setInputTarget clouds cloud l = Some l' →
       ∃ new, calls l' = calls l ++ new ∧ Forall (λ c, target_call c = true) new).
Proof.
  split; intros l'.
  - unfold setInputSource. case_decide as Hsame.
    { intros [= <-]. exists []. by rewrite app_nil_r. }
    destruct (deref clouds cloud) as [pts|]; simpl; [|done].
    destruct (neighbor_search_method_ l); simpl.
    + destruct (find_neighbors_parallel_kdtree (k_correspondences_ l) pts)
        as [[neighbors kdtree]|]; simpl; [|done].
      intros [= <-]. eexists. unfold calls. simpl. rewrite <-!app_assoc.
      split; [done|]. by repeat constructor.
    + intros [= <-]. eexists. unfold calls. simpl. rewrite <-!app_assoc.
      split; [done|]. by repeat constructor.
  - unfold setInputTarget. case_decide as Hsame.
    { intros [= <-]. exists []. by rewrite app_nil_r. }
    destruct (deref clouds cloud) as [pts|]; simpl; [|done].
    destruct (neighbor_search_method_ l); simpl.
    + destruct (find_neighbors_parallel_kdtree (k_correspondences_ l) pts)
        as [[neighbors kdtree]|]; simpl; [|done].
      intros [= <-]. eexists. unfold calls. simpl. rewrite <-!app_assoc.
      split; [done|]. by repeat constructor.
    + intros [= <-]. eexists. unfold calls. simpl. rewrite <-!app_assoc.
      split; [done|]. by repeat constructor.
Qed.
End CompositionProperties.

(** ** Runs on the grid instantiation *)

Import Grid.

Lemma insert_by_length key i l : length (insert_by key i l) = S (length l).
Proof.
  induction l as [|j l IH]; [done|].
  simpl. case_decide; simpl; by rewrite ?IH.
Qed.

Lemma sort_by_length key l : length (sort_by key l) = length l.
Proof.
  induction l as [|i l IH]; [done|].
  unfold sort_by in *. simpl. by rewrite insert_by_length, IH.
Qed.

(** The brute-force search clips [k] the way the kd-tree does. *)
#[export] Instance grid_kdtree_clips : KdTreeClips.
Proof.
  constructor. intros tree pt k Hk. unfold nearestKSearch. simpl. unfold nearest.
  by rewrite length_fmap, length_take, sort_by_length, length_seq.
Qed.

Lemma within_int_2_4 : within_int 2 4.
Proof. unfold within_int, INT_MAX. lia. Defined.

(** Fixes the neighbors a run reports to the value the search computes. *)
Ltac search_result Hfind :=
  specialize (Hfind eq_refl); vm_compute in Hfind; injection Hfind as <-.

Lemma find_neighbors_slots_witness :
  ∃ neighbors : list Z,
    find_neighbors_parallel_kdtree 2 cloud_a = Some (neighbors, cloud_a)
    ∧ length neighbors = 8%nat
    ∧ ∀ (i : nat) (pt : PointT), cloud_a !! i = Some pt →
        let found := nearestKSearch cloud_a pt 2 in
        take (length found) (drop (i * 2) neighbors) = found
        ∧ ((2 ≤ 4)%nat →
           length found = 2%nat ∧ take 2 (drop (i * 2) neighbors) = found).
Proof.
  apply (find_neighbors_slots 2 cloud_a). unfold within_int, INT_MAX. simpl. lia.
Defined.

(** C1 fails on a cloud of two points searched with [k = 3]: the search
    returns normally, the third entry of each slot still holding its initial
    zero, and the assignment goes on to upload these neighbors and to have the
    covariances computed. *)
Lemma insufficient_points_not_reported :
  (length cloud_small < 3)%nat
  ∧ find_neighbors_parallel_kdtree 3 cloud_small = Some ([0; 1; 0; 1; 0; 0], cloud_small)
  ∧ ∃ s', setSource (Some 3%positive) (with_k 3 fresh) = Some s'
      ∧ calls s' = calls fresh ++
          [SetSourceCloud cloud_small;
           SetSourceNeighbors 3 [0; 1; 0; 1; 0; 0];
           CalculateSourceCovariances PLANE;
           GetSourceCovariances].
Proof.
  split; [simpl; lia|]. split; [reflexivity|].
  eexists. split; reflexivity.
Qed.

Lemma find_neighbors_schedule_independent_witness :
  find_neighbors_parallel_kdtree_sched [3; 1; 0; 2]%nat 2 cloud_a =
    find_neighbors_parallel_kdtree_sched [2; 0; 3; 1]%nat 2 cloud_a
  ∧ find_neighbors_parallel_kdtree_sched [3; 1; 0; 2]%nat 2 cloud_a =
      find_neighbors_parallel_kdtree 2 cloud_a
  ∧ ∀ (neighbors : list Z) (i j : nat),
      0 ≤ 2 → (j < length neighbors)%nat → (j `div` Z.to_nat 2)%nat ≠ i →
      kdtree_iteration 2 cloud_a neighbors i !! j = neighbors !! j.
Proof.
  apply (find_neighbors_schedule_independent [3; 1; 0; 2]%nat [2; 0; 3; 1]%nat
           2 cloud_a);
    apply (bool_decide_unpack _); vm_compute; exact I.
Defined.

(** C2 fails after a change of the search mode.  With [cloud_a] and [cloud_b]
    assigned under the kd-tree search, switching to the brute-force search
    leaves the uploaded kd-tree neighbors in the engine; assigning the same
    clouds again is skipped; and the next run of [computeTransformation]
    issues the four configuration calls and the solver's calls only, so it
    works on the neighbors of the old mode. *)
Lemma neighbor_set_stale_after_mode_change :
  let s1 := setNearesetNeighborSearchMethod GPU_BRUTEFORCE assigned in
  let s2 := computeTransformation solver (0, 0, 0) s1 in
  input_ (registration assigned) = Some 1%positive
  ∧ neighbor_search_method_ s1 = GPU_BRUTEFORCE
  ∧ setSource (Some 1%positive) s1 = Some s1
  ∧ setTarget (Some 2%positive) s1 = Some s1
  ∧ drop (length (calls assigned)) (calls s2) =
      [SetMaxIterations 3; SetRotationEpsilon 2;
       SetTransformationEpsilon 5; SetResolution 1;
       UpdateCorrespondences (0, 0, 0); UpdateMahalanobis (0, 0, 0);
       ComputeError (0, 0, 0);
       UpdateCorrespondences (0, 0, 0); UpdateMahalanobis (0, 0, 0);
       ComputeError (0, 0, 0);
       UpdateCorrespondences (0, 0, 0); UpdateMahalanobis (0, 0, 0);
       ComputeError (0, 0, 0)]
  ∧ side_neighbors (rc_source (vgicp_cuda s2).1) =
      Some (UploadedNeighbors 2 [0; 1; 1; 0; 2; 0; 3; 2])
  ∧ side_neighbors (rc_source (vgicp_cuda s2).1) ≠
      Some (SearchedNeighbors 2 cloud_a).
Proof.
  repeat (split; [reflexivity|]). vm_compute. discriminate.
Qed.

Lemma neighbor_set_recomputed_on_new_cloud_witness :
  (∃ s', setSource (Some 2%positive) assigned = Some s'
     ∧ SetSourceNeighbors 2 [0; 1; 1; 0; 2; 0; 3; 2]
         ∈ drop (length (calls assigned)) (calls s'))
  ∧ ∀ method,
      let s1 := setNearesetNeighborSearchMethod method assigned in
      calls s1 = calls assigned
      ∧ setSource (input_ (registration assigned)) s1 = Some s1
      ∧ setTarget (target_ (registration assigned)) s1 = Some s1.
Proof.
  destruct (neighbor_set_recomputed_on_new_cloud pcl_setInputSource
              pcl_setInputTarget clouds (Some 2%positive) cloud_b assigned)
    as (Hsource & _ & Hmode).
  - reflexivity.
  - intros _. exact within_int_2_4.
  - split; [|exact Hmode].
    destruct Hsource as (s' & neighbors & Hrun & Hfind & Hcall); [discriminate|].
    search_result Hfind. exists s'. split; [exact Hrun|exact Hcall].
Defined.

Lemma swapSourceAndTarget_twice_witness :
  swapSourceAndTarget (swapSourceAndTarget assigned_bare) = assigned_bare
  ∧ input_ (registration (swapSourceAndTarget assigned_bare)) = Some 2%positive
  ∧ target_ (registration (swapSourceAndTarget assigned_bare)) = Some 1%positive
  ∧ calls (swapSourceAndTarget assigned) = calls assigned ++ [SwapSourceAndTarget].
Proof.
  destruct (swapSourceAndTarget_twice (Core := ReferenceCore) assigned_bare)
    as ((Hin & Htg & _ & _ & _ & _ & Hcalls) & Htwice).
  destruct Htwice as (Htwice & _); [by intros []|].
  split; [exact Htwice|]. split; [exact Hin|]. split; [exact Htg|].
  exact (Hcalls assigned).
Defined.

Lemma setInput_same_instance_is_noop_witness :
  setInputSource pcl_setInputSource clouds (Some 1%positive) assigned_bare
    = Some assigned_bare
  ∧ setInputTarget pcl_setInputTarget clouds (Some 2%positive) assigned_bare
    = Some assigned_bare
  ∧ deref clouds (Some 4%positive) = deref clouds (Some 1%positive)
  ∧ ∃ s', setSource (Some 4%positive) assigned = Some s'
      ∧ length (calls s') = (length (calls assigned) + 4)%nat.
Proof.
  destruct (setInput_same_instance_is_noop (Core := ReferenceCore)
              pcl_setInputSource pcl_setInputTarget clouds assigned_bare)
    as (Hsource & Htarget & Hlogged).
  split; [exact Hsource|]. split; [exact Htarget|]. split; [reflexivity|].
  destruct (Hlogged assigned) as (_ & _ & Hother).
  apply (Hother (Some 4%positive) cloud_a).
  - discriminate.
  - reflexivity.
  - reflexivity.
  - intros _. exact within_int_2_4.
Defined.

Lemma setInput_pipeline_witness :
  (∃ s', setSource (Some 1%positive) fresh = Some s'
     ∧ calls s' = calls fresh ++
         [SetSourceCloud cloud_a;
          SetSourceNeighbors 2 [0; 1; 1; 0; 2; 0; 3; 2];
          CalculateSourceCovariances PLANE;
          GetSourceCovariances])
  ∧ (∃ s', setTarget (Some 1%positive) fresh = Some s'
       ∧ calls s' = calls fresh ++
           [SetTargetCloud cloud_a;
            SetTargetNeighbors 2 [0; 1; 1; 0; 2; 0; 3; 2];
            CalculateTargetCovariances PLANE;
            CreateTargetVoxelmap]).
Proof.
  destruct (setInput_pipeline pcl_setInputSource pcl_setInputTarget clouds
              (Some 1%positive) cloud_a fresh)
    as (Hsource & Htarget & _).
  - reflexivity.
  - intros _. exact within_int_2_4.
  - split.
    + destruct Hsource as (s' & neighbors & Hrun & Hfind & Hcalls); [discriminate|].
      search_result Hfind. exists s'. split; [exact Hrun|exact Hcalls].
    + destruct Htarget as (s' & neighbors & Hrun & Hfind & Hcalls); [discriminate|].
      search_result Hfind. exists s'. split; [exact Hrun|exact Hcalls].
Defined.

Lemma compute_error_no_side_effects_witness :
  (compute_error shift_x assigned_bare).2 = assigned_bare
  ∧ (compute_error shift_x assigned_bare).1 = (0, (), ())
  ∧ (compute_error identity assigned_bare).1 = (3, (), ()).
Proof.
  destruct (compute_error_no_side_effects (Core := ReferenceCore) shift_x
              assigned_bare) as (_ & Hsame).
  destruct Hsame as (Hsame & _); [intros c; reflexivity|].
  split; [exact Hsame|]. split; reflexivity.
Defined.

Lemma setNearesetNeighborSearchMethod_only_records_witness :
  let s1 := setNearesetNeighborSearchMethod GPU_BRUTEFORCE assigned in
  neighbor_search_method_ s1 = GPU_BRUTEFORCE
  ∧ calls s1 = calls assigned
  ∧ ∃ s2, setSource (Some 2%positive) s1 = Some s2
      ∧ calls s2 = calls assigned ++
          [SetSourceCloud cloud_b;
           FindSourceNeighbors 2;
           CalculateSourceCovariances PLANE;
           GetSourceCovariances].
Proof.
  destruct (setNearesetNeighborSearchMethod_only_records pcl_setInputSource
              GPU_BRUTEFORCE assigned)
    as (Hmode & _ & _ & _ & _ & _ & _ & _ & _ & Hcalls & Hnext).
  split; [exact Hmode|]. split; [exact Hcalls|].
  destruct (Hnext clouds (Some 2%positive) cloud_b)
    as (s2 & neighbors & Hrun & _ & Hcalls2).
  - discriminate.
  - reflexivity.
  - intros Hcpu. discriminate Hcpu.
  - exists s2. split; [exact Hrun|exact Hcalls2].
Defined.

Lemma clear_resets_pointer_only_witness :
  input_ (registration (clearSource assigned)) = None
  ∧ target_ (registration (clearSource assigned)) = Some 2%positive
  ∧ max_iterations_ (registration (clearSource assigned)) = 3
  ∧ k_correspondences_ (clearSource assigned) = 2
  ∧ source_kdtree (clearSource assigned) = cloud_a
  ∧ target_kdtree (clearSource assigned) = cloud_b
  ∧ calls (clearSource assigned) = calls assigned
  ∧ setSource (Some 1%positive) assigned = Some assigned
  ∧ ∃ s', setSource (Some 1%positive) (clearSource assigned) = Some s'
      ∧ calls s' = calls assigned ++
          [SetSourceCloud cloud_a;
           SetSourceNeighbors 2 [0; 1; 1; 0; 2; 0; 3; 2];
           CalculateSourceCovariances PLANE;
           GetSourceCovariances].
Proof.
  destruct (clear_resets_pointer_only pcl_setInputSource pcl_setInputTarget
              clouds 1%positive cloud_a assigned)
    as ((Hnull & Htarget & _ & Hiter & _ & _ & _ & _ & Hk & _ & _ & Hskd & Htkd
         & _ & _ & Hcalls & Hagain) & _).
  - reflexivity.
  - intros _. exact within_int_2_4.
  - split; [exact Hnull|]. split; [exact Htarget|]. split; [exact Hiter|].
    split; [exact Hk|]. split; [exact Hskd|]. split; [exact Htkd|].
    split; [exact Hcalls|].
    destruct Hagain as (Hskip & s' & neighbors & Hrun & Hfind & Hcalls');
      [reflexivity|].
    split; [exact Hskip|].
    search_result Hfind. exists s'. split; [exact Hrun|exact Hcalls'].
Defined.

(** ** Runs of the further properties *)

Lemma elem_of_insert_by key i l (x : nat) :
  x ∈ insert_by key i l → x = i ∨ x ∈ l.
Proof.
  induction l as [|j l IH]; simpl.
  - intros ->%list_elem_of_singleton. by left.
  - case_decide.
    + intros [->|Hx]%elem_of_cons; [by left|by right].
    + intros [->|Hx]%elem_of_cons; [right; left|].
      destruct (IH Hx) as [->|Hl]; [by left|right; by right].
Qed.

Lemma elem_of_sort_by key l (x : nat) : x ∈ sort_by key l → x ∈ l.
Proof.
  induction l as [|i l IH]; [done|].
  unfold sort_by in *. simpl.
  intros [->|Hx]%elem_of_insert_by; [left|right; by apply IH].
Qed.

(** The brute-force search returns indices of indexed points only. *)
Lemma grid_nearest_in_range (tree : list PointT) (pt : PointT) (k x : Z) :
  x ∈ nearestKSearch tree pt k → 0 ≤ x < Z.of_nat (length tree).
Proof.
  unfold nearestKSearch. simpl. unfold nearest.
  intros (j & -> & Hj)%list_elem_of_fmap.
  apply subseteq_take, elem_of_sort_by, elem_of_seq in Hj. lia.
Qed.

Lemma within_int_3_2 : within_int 3 2.
Proof. unfold within_int, INT_MAX. lia. Defined.

Lemma find_neighbors_slot_contents_witness :
  (∃ neighbors,
     find_neighbors_parallel_kdtree 3 cloud_small = Some (neighbors, cloud_small)
     ∧ ∀ i pt, cloud_small !! i = Some pt →
         take 3 (drop (i * 3) neighbors)
         = nearestKSearch cloud_small pt 3
             ++ replicate (3 - length (nearestKSearch cloud_small pt 3)) 0)
  ∧ ∃ partial,
      find_neighbors_parallel_kdtree_sched [1%nat] 3 cloud_small
        = Some (partial, cloud_small)
      ∧ ∀ i pt, cloud_small !! i = Some pt →
          take 3 (drop (i * 3) partial)
          = if decide (i ∈ [1%nat])
            then nearestKSearch cloud_small pt 3
                   ++ replicate (3 - length (nearestKSearch cloud_small pt 3)) 0
            else replicate 3 0.
Proof.
  apply (find_neighbors_slot_contents [1%nat] 3 cloud_small).
  exact within_int_3_2.
Defined.

Lemma find_neighbors_indices_in_range_witness :
  ∃ neighbors,
    find_neighbors_parallel_kdtree 3 cloud_small = Some (neighbors, cloud_small)
    ∧ ∀ x, x ∈ neighbors → 0 ≤ x < 2.
Proof.
  apply (find_neighbors_indices_in_range 3 cloud_small).
  - exact grid_nearest_in_range.
  - exact within_int_3_2.
Defined.

Lemma negative_k_assignment_witness :
  find_neighbors_parallel_kdtree (-1) cloud_a = None
  ∧ setSource (Some 1%positive) negative_k = None
  ∧ ∃ l', setSource (Some 1%positive)
            (setNearesetNeighborSearchMethod GPU_BRUTEFORCE negative_k) = Some l'
      ∧ calls l' = calls negative_k ++
          [SetSourceCloud cloud_a; FindSourceNeighbors (-1);
           CalculateSourceCovariances PLANE; GetSourceCovariances].
Proof.
  destruct (negative_k_assignment pcl_setInputSource clouds (Some 1%positive)
              cloud_a negative_k) as (Hnone & Hcpu & _);
    [reflexivity|discriminate|reflexivity|discriminate|].
  destruct (negative_k_assignment pcl_setInputSource clouds (Some 1%positive)
              cloud_a (setNearesetNeighborSearchMethod GPU_BRUTEFORCE negative_k))
    as (_ & _ & Hgpu);
    [reflexivity|discriminate|reflexivity|discriminate|].
  split; [exact Hnone|]. split; [exact (Hcpu eq_refl)|exact (Hgpu eq_refl)].
Defined.

Lemma empty_cloud_assignment_witness :
  (∃ l', setInputSource pcl_setInputSource clouds_with_empty (Some 5%positive) fresh
           = Some l'
     ∧ calls l' = calls fresh ++
         [SetSourceCloud []; SetSourceNeighbors 2 [];
          CalculateSourceCovariances PLANE; GetSourceCovariances])
  ∧ (∃ l', setInputTarget pcl_setInputTarget clouds_with_empty (Some 5%positive) fresh
             = Some l'
       ∧ calls l' = calls fresh ++
           [SetTargetCloud []; SetTargetNeighbors 2 [];
            CalculateTargetCovariances PLANE; CreateTargetVoxelmap]).
Proof.
  destruct (empty_cloud_assignment pcl_setInputSource pcl_setInputTarget
              clouds_with_empty (Some 5%positive) fresh) as (Hsource & Htarget).
  - reflexivity.
  - intros _. simpl. lia.
  - split; [apply Hsource|apply Htarget]; discriminate.
Defined.

Lemma null_cloud_assignment_witness :
  setInputSource pcl_setInputSource clouds None assigned_bare = None
  ∧ setInputSource pcl_setInputSource clouds None fresh_bare = Some fresh_bare
  ∧ setInputSource pcl_setInputSource clouds None (clearSource assigned_bare)
      = Some (clearSource assigned_bare).
Proof.
  destruct (null_cloud_assignment (Core := ReferenceCore) pcl_setInputSource
              pcl_setInputTarget clouds assigned_bare)
    as (_ & Hheld & _ & _ & Hcleared & _).
  destruct (null_cloud_assignment (Core := ReferenceCore) pcl_setInputSource
              pcl_setInputTarget clouds fresh_bare) as (Hnull & _).
  split; [apply Hheld; discriminate|]. split; [apply Hnull; reflexivity|].
  exact Hcleared.
Defined.

Lemma setInput_members_witness :
  k_correspondences_ source_bare = 2
  ∧ neighbor_search_method_ source_bare = CPU_PARALLEL_KDTREE
  ∧ target_kdtree source_bare = []
  ∧ deref clouds (Some 1%positive) = Some (source_kdtree source_bare).
Proof.
  destruct (setInput_members (Core := ReferenceCore) pcl_setInputSource
              pcl_setInputTarget clouds (Some 1%positive) fresh_bare source_bare)
    as (Hsource & _).
  destruct Hsource as (_ & _ & Hk & _ & _ & Hm & Htk & Hcpu & _);
    [reflexivity|discriminate|].
  split; [exact Hk|]. split; [exact Hm|]. split; [exact Htk|].
  apply Hcpu. reflexivity.
Defined.

Lemma setInput_twice_witness :
  setInputSource pcl_setInputSource clouds (Some 1%positive) source_bare
    = Some source_bare.
Proof.
  destruct (setInput_twice (Core := ReferenceCore) pcl_setInputSource
              pcl_setInputTarget clouds (Some 1%positive) fresh_bare source_bare)
    as (Hsource & _).
  apply Hsource; reflexivity.
Defined.

Lemma swap_then_assign_witness :
  setSource (Some 2%positive) (swapSourceAndTarget assigned)
    = Some (swapSourceAndTarget assigned)
  ∧ ∃ l', setSource (Some 1%positive) (swapSourceAndTarget assigned) = Some l'
      ∧ calls l' = calls assigned ++
          [SwapSourceAndTarget; SetSourceCloud cloud_a;
           SetSourceNeighbors 2 [0; 1; 1; 0; 2; 0; 3; 2];
           CalculateSourceCovariances PLANE; GetSourceCovariances].
Proof.
  destruct (swap_then_assign pcl_setInputSource pcl_setInputTarget clouds assigned)
    as (Hskip & _ & Hfull).
  split; [exact Hskip|].
  destruct (Hfull cloud_a) as (l' & neighbors & Hrun & Hfind & Hcalls).
  - discriminate.
  - reflexivity.
  - intros _. exact within_int_2_4.
  - search_result Hfind. exists l'. split; [exact Hrun|exact Hcalls].
Defined.

Lemma new_adapter_searches_on_host_witness :
  ∃ l', setSource (Some 1%positive) fresh = Some l'
    ∧ calls l' =
        [SetMaxIterations 3; SetRotationEpsilon 2;
         SetTransformationEpsilon 5; SetResolution 1;
         SetSourceCloud cloud_a;
         SetSourceNeighbors 2 [0; 1; 1; 0; 2; 0; 3; 2];
         CalculateSourceCovariances PLANE; GetSourceCovariances].
Proof.
  destruct (new_adapter_searches_on_host (Core := ReferenceCore)
              pcl_setInputSource clouds (Some 1%positive) cloud_a
              new_registration 2 2 PLANE 1 [] [])
    as (l' & neighbors & Hrun & Hfind & Hcalls).
  - discriminate.
  - reflexivity.
  - exact within_int_2_4.
  - vm_compute in Hfind. injection Hfind as <-.
    exists l'. split; [exact Hrun|exact Hcalls].
Defined.

Lemma assignment_calls_stay_on_their_side_witness :
  ∃ new,
    calls assigned = calls (default fresh (setSource (Some 1%positive) fresh)) ++ new
    ∧ Forall (λ c, target_call c = true) new.
Proof.
  destruct (assignment_calls_stay_on_their_side pcl_setInputSource
              pcl_setInputTarget clouds (Some 2%positive)
              (default fresh (setSource (Some 1%positive) fresh)))
    as (_ & Htarget).
  apply (Htarget assigned). vm_compute. reflexivity.
Defined.

Lemma find_neighbors_zero_k_witness :
  find_neighbors_parallel_kdtree 0 cloud_a = Some ([], cloud_a)
  ∧ (∀ tree pt, nearestKSearch tree pt 0 = [])
  ∧ ∀ neighbors i, kdtree_iteration 0 cloud_a neighbors i = neighbors.
Proof.
  apply (find_neighbors_zero_k cloud_a). unfold INT_MAX. simpl. lia.
Defined.
